(** * Symmetric fibers on top of the emscripten fiber primitive

    A shallow embedding of [include/boost/context/fiber_emscripten.hpp]:
    activation records, the capture record with its entry trampoline, the
    placement of the record inside the stack region, and the move-only
    [fiber] handle with its resume / resume_with / destructor protocol.

    Library code and user closures are computations of one resumption monad
    [M]: a computation either finishes, raises a C++ exception, trips an
    assertion, touches an invalid pointer, or reaches
    [emscripten_fiber_swap] and hands the rest of its own stack to the
    scheduler as a continuation. *)

From Stdlib Require Import ZArith List Bool Lia.
From stdpp Require Import gmap strings.

Local Open Scope Z_scope.

(** ** Pointers and machine words *)

(** [uintptr_t] of the wasm32 target: 32 bits, arithmetic wraps. *)
Definition uintptr_bits : Z := 32.
Definition uintptr_modulus : Z := 2 ^ uintptr_bits.
Definition to_uintptr (x : Z) : Z := x mod uintptr_modulus.

Definition nullptr : Z := 0.

(** ** Data model *)

(** [stack_context]: the region handed out by a stack allocator.  [sp] is
    the high end of the region, the region is [sp - size, sp). *)
Record stack_context := mk_stack_context {
  size : Z;
  sp : Z
}.

Record preallocated := mk_preallocated {
  palloc_sp : Z;
  palloc_size : Z;
  palloc_sctx : stack_context
}.

(** Modelled from the spec: the stack allocator is an external collaborator
    consumed through [allocate() -> StackRegion] and
    [deallocate(StackRegion)]; the model is a fixed-size allocator carving
    regions of [salloc_size] bytes out of a bump heap. *)
Record StackAlloc := mk_StackAlloc {
  salloc_size : Z
}.

(** Modelled from the spec: [emscripten_fiber_t], the storage of the
    context-switch primitive.  [init] prepares a not-yet-run stack so that
    the first switch into it invokes the entry function on its argument. *)
Inductive emscripten_fiber_t :=
| fiber_zeroed
| fiber_from_current (asyncify_stack_ asyncify_stack_size_ : Z)
| fiber_entry (entry_arg stack_bottom_ stack_size_ asyncify_stack_ asyncify_stack_size_ : Z)
| fiber_started.

(** Identifier of a user callable (context function or on-top function)
    in the code table. *)
Definition fn_id := nat.

(** [fiber_capture_record] adds the allocator and the closure. *)
Record capture_fields := mk_capture {
  salloc_ : StackAlloc;
  fn_ : fn_id
}.

(** [fiber_activation_record]; [capture] is [Some] for the derived
    [fiber_capture_record].  The [ontop] slot holds the wrapper lambda of
    [resume_with], represented by the function it captured. *)
Record fiber_activation_record := mk_record {
  asyncify_stack_size : Z;
  asyncify_stack : Z;
  asyncify_stack_owned : bool;
  context : emscripten_fiber_t;
  sctx : stack_context;
  main_ctx : bool;
  from : Z;
  ontop : option fn_id;
  terminated : bool;
  force_unwind : bool;
  capture : option capture_fields
}.

(** The move-only handle. *)
Record fiber := mk_fiber { ptr_ : Z }.

(** [forced_unwind] and every other exception user code may throw. *)
Inductive exn :=
| forced_unwind (from_ : Z)
| user_exception (tag : Z).

(** Calls that leave the library: effects of user code, the allocator,
    [delete[]] and the destructor of a closure object. *)
Inductive event :=
| ev_user (tag : Z)
| ev_allocate (sc : stack_context)
| ev_deallocate (sc : stack_context)
| ev_new_array (p n : Z)
| ev_delete_array (p : Z)
| ev_destroy_fn (f : fn_id).

Record state := mk_state {
  records : gmap Z fiber_activation_record;
  current_ : Z;
  objects : gmap Z fiber;
  brk : Z;
  trace : list event
}.

Global Instance stack_context_eq_dec : EqDecision stack_context.
Proof. solve_decision. Defined.
Global Instance event_eq_dec : EqDecision event.
Proof. solve_decision. Defined.

(** ** The resumption monad *)

Inductive Res (A : Type) : Type :=
| Done (a : A) (s : state)
| Raised (e : exn) (s : state)
| Aborted (msg : string) (s : state)
| Fault (s : state)
| Switch (from_ctx to_ctx : Z) (s : state) (k : state -> Res A).

Arguments Done {A} a s.
Arguments Raised {A} e s.
Arguments Aborted {A} msg s.
Arguments Fault {A} s.
Arguments Switch {A} from_ctx to_ctx s k.

Definition M (A : Type) : Type := state -> Res A.

Fixpoint bind_res {A B} (r : Res A) (f : A -> M B) : Res B :=
  match r with
  | Done a s => f a s
  | Raised e s => Raised e s
  | Aborted msg s => Aborted msg s
  | Fault s => Fault s
  | Switch a b s k => Switch a b s (fun s' => bind_res (k s') f)
  end.

Definition ret {A} (a : A) : M A := fun s => Done a s.
Definition bind {A B} (m : M A) (f : A -> M B) : M B := fun s => bind_res (m s) f.

Declare Scope fiber_scope.
Delimit Scope fiber_scope with fiber.
Notation "x <- m ;; k" := (bind m (fun x => k))
  (at level 20, m at level 99, k at level 200, only parsing) : fiber_scope.
Notation "m ;; k" := (bind m (fun _ => k))
  (at level 100, k at level 200, right associativity, only parsing) : fiber_scope.
Local Open Scope fiber_scope.

(** [try { body } catch (...) { handler }]; the handler rethrows what it
    does not catch. *)
Fixpoint try_catch_res {A} (r : Res A) (h : exn -> M A) : Res A :=
  match r with
  | Done a s => Done a s
  | Raised e s => h e s
  | Aborted msg s => Aborted msg s
  | Fault s => Fault s
  | Switch a b s k => Switch a b s (fun s' => try_catch_res (k s') h)
  end.

Definition try_catch {A} (m : M A) (h : exn -> M A) : M A :=
  fun s => try_catch_res (m s) h.

(** A [noexcept] function: an exception that reaches its boundary ends the
    program through [std::terminate]. *)
Definition terminate_msg : string := "std::terminate".

Fixpoint noexcept_res {A} (r : Res A) : Res A :=
  match r with
  | Raised _ s => Aborted terminate_msg s
  | Switch a b s k => Switch a b s (fun s' => noexcept_res (k s'))
  | other => other
  end.

Definition noexcept {A} (m : M A) : M A := fun s => noexcept_res (m s).

Definition throw {A} (e : exn) : M A := fun s => Raised e s.

Definition BOOST_ASSERT_MSG (b : bool) (msg : string) : M unit :=
  fun s => if b then Done tt s else Aborted msg s.

(** ** State access *)

Definition set_records (f : gmap Z fiber_activation_record -> gmap Z fiber_activation_record)
    (s : state) : state :=
  mk_state (f (records s)) (current_ s) (objects s) (brk s) (trace s).
Definition set_current_ (c : Z) (s : state) : state :=
  mk_state (records s) c (objects s) (brk s) (trace s).
Definition set_objects (f : gmap Z fiber -> gmap Z fiber) (s : state) : state :=
  mk_state (records s) (current_ s) (f (objects s)) (brk s) (trace s).
Definition set_brk (b : Z) (s : state) : state :=
  mk_state (records s) (current_ s) (objects s) b (trace s).
Definition add_event (e : event) (s : state) : state :=
  mk_state (records s) (current_ s) (objects s) (brk s) (trace s ++ [e]).

Definition set_from (v : Z) (r : fiber_activation_record) :=
  mk_record (asyncify_stack_size r) (asyncify_stack r) (asyncify_stack_owned r) (context r)
    (sctx r) (main_ctx r) v (ontop r) (terminated r) (force_unwind r) (capture r).
Definition set_ontop (v : option fn_id) (r : fiber_activation_record) :=
  mk_record (asyncify_stack_size r) (asyncify_stack r) (asyncify_stack_owned r) (context r)
    (sctx r) (main_ctx r) (from r) v (terminated r) (force_unwind r) (capture r).
Definition set_terminated (v : bool) (r : fiber_activation_record) :=
  mk_record (asyncify_stack_size r) (asyncify_stack r) (asyncify_stack_owned r) (context r)
    (sctx r) (main_ctx r) (from r) (ontop r) v (force_unwind r) (capture r).
Definition set_force_unwind (v : bool) (r : fiber_activation_record) :=
  mk_record (asyncify_stack_size r) (asyncify_stack r) (asyncify_stack_owned r) (context r)
    (sctx r) (main_ctx r) (from r) (ontop r) (terminated r) v (capture r).
Definition set_context (v : emscripten_fiber_t) (r : fiber_activation_record) :=
  mk_record (asyncify_stack_size r) (asyncify_stack r) (asyncify_stack_owned r) v
    (sctx r) (main_ctx r) (from r) (ontop r) (terminated r) (force_unwind r) (capture r).
Definition set_asyncify (p n : Z) (owned : bool) (r : fiber_activation_record) :=
  mk_record n p owned (context r)
    (sctx r) (main_ctx r) (from r) (ontop r) (terminated r) (force_unwind r) (capture r).

(** Reading through a pointer: an address that holds no live record is
    undefined behaviour, reported as [Fault]. *)
Definition deref (p : Z) : M fiber_activation_record :=
  fun s => match records s !! p with
           | Some r => Done r s
           | None => Fault s
           end.

(** Writing a field through a pointer. *)
Definition modify (p : Z) (f : fiber_activation_record -> fiber_activation_record) : M unit :=
  fun s => match records s !! p with
           | Some r => Done tt (set_records <[p := f r]> s)
           | None => Fault s
           end.

Definition emit (e : event) : M unit := fun s => Done tt (add_event e s).

(** Modelled from the spec: [current()] is the thread-local pointer to the
    record that is presently running; its definition lives outside the
    header. *)
Definition current : M Z := fun s => Done (current_ s) s.
Definition assign_current (p : Z) : M unit := fun s => Done tt (set_current_ p s).

(** Modelled from the spec: [switch(from_storage, to_storage)] suspends the
    calling stack and does not return until a later transfer targets
    [from_storage] again.  The caller's remaining work is the continuation
    of the [Switch] node; the scheduler [exec] below keeps it. *)
Definition emscripten_fiber_swap (from_ctx to_ctx : Z) : M unit :=
  fun s => Switch from_ctx to_ctx s (fun s' => Done tt s').

(** Modelled from the spec: [init(storage, entry_fn, entry_arg,
    stack_region, auxiliary_region)]; the entry function of this header is
    always [fiber_entry_func], so only its argument is stored. *)
Definition emscripten_fiber_init (p entry_arg stack_bottom stack_size astack asize : Z) : M unit :=
  modify p (set_context (fiber_entry entry_arg stack_bottom stack_size astack asize)).

Definition emscripten_fiber_init_from_current_context (p astack asize : Z) : M unit :=
  modify p (set_context (fiber_from_current astack asize)).

(** [new uint8_t[n]] and [delete[]] on the bump heap. *)
Definition new_array (n : Z) : M Z :=
  fun s => Done (brk s) (add_event (ev_new_array (brk s) n) (set_brk (brk s + n) s)).
Definition delete_array (p : Z) : M unit := emit (ev_delete_array p).

(** Modelled from the spec: [allocate()] and [deallocate()] of the stack
    allocator. *)
Definition salloc_allocate (a : StackAlloc) : M stack_context :=
  fun s => let sc := mk_stack_context (salloc_size a) (brk s + salloc_size a) in
           Done sc (add_event (ev_allocate sc) (set_brk (brk s + salloc_size a) s)).
Definition salloc_deallocate (a : StackAlloc) (sc : stack_context) : M unit :=
  emit (ev_deallocate sc).

(** ** Handle objects in memory *)

Definition load_fiber (x : Z) : M fiber :=
  fun s => match objects s !! x with
           | Some f => Done f s
           | None => Fault s
           end.

Definition store_fiber (x : Z) (f : fiber) : M unit :=
  fun s => Done tt (set_objects <[x := f]> s).

(** The address given to a handle object that is local to a function: not
    null, and not the address of any live handle object. *)
Definition local_address (s : state) : Z := fresh ({[nullptr]} ∪ dom (objects s)).

Definition new_local (v : fiber) : M Z :=
  fun s => Done (local_address s) (set_objects <[local_address s := v]> s).

(** A callable whose parameter is declared by value, [fiber fn(fiber)]:
    the parameter is move-constructed from the argument object, which is
    left empty, before the body runs. *)
Definition by_value (body : fiber -> M fiber) (x : Z) : M fiber :=
  h <- load_fiber x ;;
  store_fiber x (mk_fiber nullptr) ;;
  body h.

(** The end of the lifetime of a local handle object, after its destructor
    has run. *)
Definition end_local (x : Z) : M unit :=
  fun s => Done tt (set_objects (delete x) s).

(** ** The library *)

Section Library.

(** The code of the user callables: the functions handed to [resume_with]
    and the context functions handed to the constructor.  Both are invoked
    as [fn(std::move(c))] on a handle object [c] of the caller: they get
    the address of [c], may move the handle out of it or leave it there,
    and return a handle.  A callable declared with a by-value parameter
    begins by moving the handle out of [c]. *)
Variable ontop_code : fn_id -> Z -> M fiber.
Variable code : fn_id -> Z -> M fiber.

(** *** fiber_activation_record *)

Definition default_asyncify_stack_size : Z := Z.shiftl 1 15.

Definition allocate_asyncify_stack (this : Z) : M unit :=
  r <- deref this ;;
  BOOST_ASSERT_MSG (asyncify_stack r =? nullptr) "!asyncify_stack" ;;
  p <- new_array default_asyncify_stack_size ;;
  modify this (set_asyncify p default_asyncify_stack_size true).

(** [fiber_activation_record()], the toplevel-context constructor, building
    the record at address [this]. *)
Definition main_record_init : fiber_activation_record :=
  mk_record 0 nullptr false fiber_zeroed (mk_stack_context 0 nullptr) true nullptr None
    false false None.

Definition construct_main_record (this : Z) : M unit :=
  (fun s => Done tt (set_records <[this := main_record_init]> s)) ;;
  allocate_asyncify_stack this ;;
  r <- deref this ;;
  emscripten_fiber_init_from_current_context this (asyncify_stack r) (asyncify_stack_size r).

(** [fiber_activation_record(stack_context)] followed by the members of
    [fiber_capture_record]. *)
Definition capture_record_init (sctx_ : stack_context) (salloc : StackAlloc) (fn : fn_id)
    : fiber_activation_record :=
  mk_record 0 nullptr false fiber_zeroed sctx_ false nullptr None false false
    (Some (mk_capture salloc fn)).

(** [~fiber_activation_record()]. *)
Definition record_dtor (this : Z) : M unit :=
  r <- deref this ;;
  (if negb (asyncify_stack r =? nullptr) && asyncify_stack_owned r
   then delete_array (asyncify_stack r) else ret tt) ;;
  fun s => Done tt (set_records (delete this) s).

Definition is_main_context (this : Z) : M bool :=
  r <- deref this ;; ret (main_ctx r).

(** [std::exchange(current()->from, nullptr)]. *)
Definition exchange_current_from : M Z :=
  cur <- current ;;
  r <- deref cur ;;
  modify cur (set_from nullptr) ;;
  ret (from r).

Definition record_resume (this : Z) : M Z :=
  cur <- current ;;
  modify this (set_from cur) ;;
  assign_current this ;;
  r <- deref this ;;
  emscripten_fiber_swap (from r) this ;;
  exchange_current_from.

(** *** fiber: observers and destruction *)

Definition operator_bool (this : fiber) : M bool :=
  if negb (ptr_ this =? nullptr)
  then r <- deref (ptr_ this) ;; ret (negb (terminated r))
  else ret false.

Definition operator_not (this : fiber) : M bool :=
  if ptr_ this =? nullptr
  then ret true
  else r <- deref (ptr_ this) ;; ret (terminated r).

Definition operator_lt (this other : fiber) : bool := ptr_ this <? ptr_ other.

(** [fiber_capture_record::destroy]: the closure object dies with the
    record, then the stack goes back to the allocator. *)
Definition destroy (p : Z) : M unit :=
  noexcept (
    r <- deref p ;;
    match capture r with
    | Some c =>
        let salloc := salloc_ c in
        let sctx_ := sctx r in
        emit (ev_destroy_fn (fn_ c)) ;;
        record_dtor p ;;
        salloc_deallocate salloc sctx_
    | None => ret tt
    end).

(** The virtual [deallocate]: empty in the base class, overridden by the
    capture record. *)
Definition deallocate (this : Z) : M unit :=
  noexcept (
    r <- deref this ;;
    match capture r with
    | Some _ =>
        BOOST_ASSERT_MSG (main_ctx r || (negb (main_ctx r) && terminated r))
          "main_ctx || (!main_ctx && terminated)" ;;
        destroy this
    | None => ret tt
    end).

(** [~fiber()]. *)
Definition fiber_dtor (this : fiber) : M unit :=
  if negb (ptr_ this =? nullptr) then
    r <- deref (ptr_ this) ;;
    if negb (main_ctx r) then
      (if negb (terminated r) then
         modify (ptr_ this) (set_force_unwind true) ;;
         _ <- record_resume (ptr_ this) ;;
         r' <- deref (ptr_ this) ;;
         BOOST_ASSERT_MSG (terminated r') "ptr_->terminated"
       else ret tt) ;;
      deallocate (ptr_ this)
    else ret tt
  else ret tt.

(** *** fiber: transfer of control *)

(** [c = <temporary>]: [operator=(fiber&&)] whose source is a temporary
    holding [v], an object different from [c].  The [tmp] of the operator
    takes [v], the swap puts [v] into [c] and what [c] held into [tmp],
    and the destructor of [tmp] destroys that; the emptied temporary has
    nothing to destroy. *)
Definition assign_temporary (this : Z) (v : fiber) : M unit :=
  old <- load_fiber this ;;
  store_fiber this v ;;
  fiber_dtor old.

(** The destructor of a local handle object [c] at the end of its
    lifetime. *)
Definition destroy_local (c : Z) : M unit :=
  h <- load_fiber c ;;
  fiber_dtor h ;;
  end_local c.

(** A block with a local handle object initialised to [v]: the object is
    destroyed when the block is left, by its end or by an exception. *)
Definition with_local {A} (v : fiber) (body : Z -> M A) : M A :=
  c <- new_local v ;;
  res <- try_catch (body c) (fun e => destroy_local c ;; throw e) ;;
  destroy_local c ;;
  ret res.

(** The lambda stored by [resume_with].  It receives [ptr] by reference;
    the result pairs the value left in [ptr] with the returned pointer. *)
Definition ontop_lambda (fn : fn_id) (ptr : Z) : M (Z * Z) :=
  with_local (mk_fiber ptr) (fun c =>
    res <- ontop_code fn c ;;
    assign_temporary c res ;;
    h <- load_fiber c ;;
    e <- operator_not h ;;
    let ptr' := if e then nullptr else ptr in
    store_fiber c (mk_fiber nullptr) ;;
    ret (ptr', ptr_ h)).

(** What [fiber::resume] and [fiber::resume_with] do once the switch has
    returned the value [ptr]. *)
Definition after_transfer (ptr : Z) : M fiber :=
  cur <- current ;;
  r <- deref cur ;;
  if force_unwind r then throw (forced_unwind ptr)
  else match ontop r with
       | Some fn =>
           res <- ontop_lambda fn ptr ;;
           cur' <- current ;;
           modify cur' (set_ontop None) ;;
           ret (mk_fiber (snd res))
       | None => ret (mk_fiber ptr)
       end.

Definition fiber_resume (this : fiber) : M fiber :=
  BOOST_ASSERT_MSG (negb (ptr_ this =? nullptr)) "nullptr != ptr_" ;;
  ptr <- record_resume (ptr_ this) ;;
  after_transfer ptr.

(** [std::move(x).resume()] on the handle object at address [x]: the
    same, with [std::exchange(ptr_, nullptr)] emptying the object. *)
Definition fiber_resume_at (x : Z) : M fiber :=
  this <- load_fiber x ;;
  BOOST_ASSERT_MSG (negb (ptr_ this =? nullptr)) "nullptr != ptr_" ;;
  store_fiber x (mk_fiber nullptr) ;;
  ptr <- record_resume (ptr_ this) ;;
  after_transfer ptr.

Definition record_resume_with (this : Z) (fn : fn_id) : M Z :=
  cur <- current ;;
  modify this (set_from cur) ;;
  assign_current this ;;
  cur' <- current ;;
  modify cur' (set_ontop (Some fn)) ;;
  r <- deref this ;;
  emscripten_fiber_swap (from r) this ;;
  exchange_current_from.

Definition fiber_resume_with (this : fiber) (fn : fn_id) : M fiber :=
  BOOST_ASSERT_MSG (negb (ptr_ this =? nullptr)) "nullptr != ptr_" ;;
  ptr <- record_resume_with (ptr_ this) fn ;;
  after_transfer ptr.

(** *** fiber_capture_record::run and the entry function *)

(** The handle [c] is a local of [run].  [run] never returns, and an
    exception that leaves it ends the program at the [noexcept] entry
    function, so [c] is not destroyed on either way out. *)
Definition run (this : Z) : M unit :=
  r <- deref this ;;
  c <- new_local (mk_fiber (from r)) ;;
  try_catch
    (match capture r with
     | Some cf => res <- code (fn_ cf) c ;; assign_temporary c res
     | None => fun s => Fault s
     end)
    (fun e => match e with
              | forced_unwind from_ => assign_temporary c (mk_fiber from_)
              | other => throw other
              end) ;;
  modify this (set_from nullptr) ;;
  modify this (set_ontop None) ;;
  modify this (set_terminated true) ;;
  modify this (set_force_unwind false) ;;
  back <- fiber_resume_at c ;;
  fiber_dtor back ;;
  BOOST_ASSERT_MSG false "continuation already terminated".

Definition fiber_entry_func (data : Z) : M unit :=
  noexcept (
    BOOST_ASSERT_MSG (negb (data =? nullptr)) "nullptr != record" ;;
    run data).

End Library.

(** *** Placement of the capture record: allocate_and_init_record *)

(** [size_t] has the width of [uintptr_t] on this target. *)
Definition to_size_t (x : Z) : Z := to_uintptr x.

(** The address chosen for the record. *)
Definition record_address (sizeof_T : Z) (stack_base : Z) : Z :=
  let asyncify_stack_size' := 10000 in
  let required_space := to_size_t (sizeof_T + asyncify_stack_size') in
  Z.land (to_uintptr (stack_base - required_space)) (to_uintptr (Z.lnot 255)).

Definition region_bottom (sctx_ : stack_context) : Z :=
  to_uintptr (sp sctx_ - size sctx_).

(** Returns the record together with the new value of the by-reference
    argument [stack_base]. *)
Definition allocate_and_init_record (sizeof_T : Z) (sctx_ : stack_context) (stack_base : Z)
    (salloc : StackAlloc) (fn : fn_id) : M (Z * Z) :=
  let stack_bottom := region_bottom sctx_ in
  let record_ptr := record_address sizeof_T stack_base in
  BOOST_ASSERT_MSG (stack_bottom <? record_ptr) "record_ptr > stack_bottom" ;;
  let stack_base := record_ptr in
  let record := record_ptr in
  (fun s => Done tt (set_records <[record := capture_record_init sctx_ salloc fn]> s)) ;;
  let asyncify_stack_ptr := to_uintptr (record_ptr + sizeof_T) in
  let asyncify_stack_size' := to_size_t (sp sctx_ - asyncify_stack_ptr) in
  modify record (set_asyncify asyncify_stack_ptr asyncify_stack_size' false) ;;
  let stack_size := to_size_t (stack_base - stack_bottom) in
  r <- deref record ;;
  emscripten_fiber_init record record stack_bottom stack_size
    (asyncify_stack r) (asyncify_stack_size r) ;;
  ret (record, stack_base).

Definition create_fiber1 (sizeof_T : Z) (salloc : StackAlloc) (fn : fn_id) : M Z :=
  sctx_ <- salloc_allocate salloc ;;
  let stack_base := sp sctx_ in
  res <- allocate_and_init_record sizeof_T sctx_ stack_base salloc fn ;;
  ret (fst res).

Definition create_fiber2 (sizeof_T : Z) (palloc : preallocated) (salloc : StackAlloc)
    (fn : fn_id) : M Z :=
  let stack_base := palloc_sp palloc in
  res <- allocate_and_init_record sizeof_T (palloc_sctx palloc) stack_base salloc fn ;;
  ret (fst res).

(** [fiber(std::allocator_arg_t, StackAlloc&&, Fn&&)] and the preallocated
    variant. *)
Definition fiber_construct (sizeof_T : Z) (salloc : StackAlloc) (fn : fn_id) : M fiber :=
  p <- create_fiber1 sizeof_T salloc fn ;; ret (mk_fiber p).

Definition fiber_construct_preallocated (sizeof_T : Z) (palloc : preallocated)
    (salloc : StackAlloc) (fn : fn_id) : M fiber :=
  p <- create_fiber2 sizeof_T palloc salloc fn ;; ret (mk_fiber p).

(** *** fiber objects: swap and moves

    Assignment compares the identity of two handle objects, so these
    operations work on handles stored at addresses. *)

Definition fiber_swap (this other : Z) : M unit :=
  a <- load_fiber this ;;
  b <- load_fiber other ;;
  store_fiber this b ;;
  store_fiber other a.

(** [fiber(fiber&& other)]: the new object starts empty and swaps. *)
Definition fiber_move_construct (this other : Z) : M unit :=
  store_fiber this (mk_fiber nullptr) ;;
  fiber_swap this other.

(** [operator=(fiber&& other)]; [tmp] is a local object at a scratch
    address that is destroyed when the block ends. *)
Definition fiber_move_assign (tmp this other : Z) : M unit :=
  if negb (this =? other) then
    fiber_move_construct tmp other ;;
    fiber_swap this tmp ;;
    t <- load_fiber tmp ;;
    fiber_dtor t ;;
    fun s => Done tt (set_objects (delete tmp) s)
  else ret tt.

(** ** The scheduler: what the context-switch primitive does with the
    continuations *)

Inductive outcome :=
| Finished (s : state)
| Uncaught (e : exn) (s : state)
| AssertionFailed (msg : string) (s : state)
| Undefined (s : state)
| OutOfFuel.

Section Scheduler.

Variable ontop_code : fn_id -> Z -> M fiber.
Variable code : fn_id -> Z -> M fiber.

(** [main] is the context the program started on; [running] the context
    whose stack is executing [r]; [saved] holds the suspended stacks. *)
Fixpoint exec (fuel : nat) (main : Z) (saved : gmap Z (state -> Res unit)) (running : Z)
    (r : Res unit) : outcome :=
  match fuel with
  | O => OutOfFuel
  | S n =>
      match r with
      | Done _ s => if running =? main then Finished s else Undefined s
      | Raised e s => Uncaught e s
      | Aborted msg s => AssertionFailed msg s
      | Fault s => Undefined s
      | Switch a b s k =>
          let saved' := <[a := k]> saved in
          match records s !! b with
          | Some rec =>
              match context rec with
              | fiber_entry arg _ _ _ _ =>
                  exec n main saved' b
                    (fiber_entry_func ontop_code code arg
                       (set_records <[b := set_context fiber_started rec]> s))
              | fiber_zeroed => Undefined s
              | _ =>
                  match saved' !! b with
                  | Some k' => exec n main (delete b saved') b (k' s)
                  | None => Undefined s
                  end
              end
          | None => Undefined s
          end
      end
  end.

(** Modelled from the spec: the main-context record is constructed once per
    thread at first use and becomes [current()]. *)
Definition thread_start (main heap_base : Z) : state :=
  match construct_main_record main
          (mk_state ∅ nullptr ∅ heap_base []) with
  | Done _ s => set_current_ main s
  | _ => mk_state ∅ nullptr ∅ heap_base []
  end.

Definition run_program (fuel : nat) (main heap_base : Z) (prog : M unit) : outcome :=
  exec fuel main ∅ main (prog (thread_start main heap_base)).

End Scheduler.


(** ** States named in the statements *)

Definition entered (this : Z) (r : fiber_activation_record) (s : state) : state :=
  set_current_ this (set_records <[this := set_from (current_ s) r]> s).

Definition from_cleared (rc : fiber_activation_record) (s : state) : state :=
  set_records <[current_ s := set_from nullptr rc]> s.

Definition freed_events (r : fiber_activation_record) (cf : capture_fields) : list event :=
  [ev_destroy_fn (fn_ cf)] ++
  (if negb (asyncify_stack r =? nullptr) && asyncify_stack_owned r
   then [ev_delete_array (asyncify_stack r)] else []) ++
  [ev_deallocate (sctx r)].


Definition ontop_cleared (rc : fiber_activation_record) (s : state) : state :=
  set_records <[current_ s := set_ontop None rc]> s.

Definition ontop_installed (fn : fn_id) (this : Z) (r : fiber_activation_record) (s : state)
    : state :=
  set_current_ this (set_records <[this := set_ontop (Some fn) (set_from (current_ s) r)]> s).

(** The record of a fiber whose context function is over, and the state in
    which the trampoline makes its last transfer. *)
Definition finished (r : fiber_activation_record) : fiber_activation_record :=
  set_force_unwind false (set_terminated true (set_ontop None (set_from nullptr r))).

Definition run_finished (this : Z) (r : fiber_activation_record) (s : state) : state :=
  set_records <[this := finished r]> s.

(** ** Behaviour across switches *)


(** [mirrors leaf r r']: the computation [r'] makes exactly the switches
    of [r], from the same contexts, into the same contexts and in the same
    states, however they are answered; and where [r] ends with a final
    result, that result and what [r'] does from there are related by
    [leaf]. *)
Fixpoint mirrors {A B : Type} (leaf : Res A -> Res B -> Prop) (r : Res A) (r' : Res B)
    : Prop :=
  match r with
  | Switch a b s k =>
      match r' with
      | Switch a' b' s' k' =>
          a' = a /\ b' = b /\ s' = s /\ forall x, mirrors leaf (k x) (k' x)
      | _ => False
      end
  | other => leaf other r'
  end.





(** What [~fiber] still has to do when the switch it made is answered. *)
Definition dtor_after_switch (p : Z) (s' : state) : Res unit :=
  bind_res
    (bind_res (exchange_current_from s')
       (fun _ => bind (deref p)
          (fun r' => BOOST_ASSERT_MSG (terminated r') "ptr_->terminated")))
    (fun _ => deallocate p).

(** ** Parts of the trampoline named in the statements *)

(** The handler of the [try] block of [run], for the handle object [c]. *)
Definition run_catch (c : Z) (e : exn) : M unit :=
  match e with
  | forced_unwind from_ => assign_temporary c (mk_fiber from_)
  | other => throw other
  end.

Section Epilogue.

Variable ontop_code : fn_id -> Z -> M fiber.

(** What the trampoline still has to do when its last transfer is
    answered, and the statements of [run] after the [try] block. *)
Definition after_last_transfer (s' : state) : Res unit :=
  bind_res (bind_res (exchange_current_from s') (after_transfer ontop_code))
    (fun back => bind (fiber_dtor back)
       (fun _ => BOOST_ASSERT_MSG false "continuation already terminated")).

Definition run_epilogue (this : Z) (c : Z) : M unit :=
  bind (modify this (set_from nullptr)) (fun _ =>
  bind (modify this (set_ontop None)) (fun _ =>
  bind (modify this (set_terminated true)) (fun _ =>
  bind (modify this (set_force_unwind false)) (fun _ =>
  bind (fiber_resume_at ontop_code c) (fun back =>
  bind (fiber_dtor back) (fun _ =>
  BOOST_ASSERT_MSG false "continuation already terminated")))))).

End Epilogue.

(** ** Parts of the transfer named in the statements *)

(** The callable invoked on the handle object [c] took the handle out of
    it. *)
Definition consumed (c : Z) (s : state) : Prop :=
  objects s !! c = Some (mk_fiber nullptr).

(** The callable left in [c] a handle [h] to a record [rh] that is neither
    the main context nor terminated. *)
Definition left_unfinished (c : Z) (s : state) (h : fiber) (rh : fiber_activation_record)
    : Prop :=
  objects s !! c = Some h /\ ptr_ h <> nullptr /\ records s !! ptr_ h = Some rh /\
  main_ctx rh = false /\ terminated rh = false.

(** The state once the destructor of a handle to record [p], answered in
    state [s5] after [p] ran to its end, has deallocated [p]; [rc] is the
    record of the context that runs the destructor. *)
Definition unwound (p : Z) (rc r5 : fiber_activation_record) (cf : capture_fields)
    (s5 : state) : state :=
  mk_state (delete p (records (from_cleared rc s5))) (current_ s5) (objects s5) (brk s5)
    (trace s5 ++ freed_events r5 cf).

(** The next thing [r'] does in state [s] is the switch by which the
    destructor of [h] forces the record [rh] to unwind; when the switch is
    answered with that record terminated, the record is deallocated and
    [r'] goes on as [after] says. *)
Definition unwinds {A : Type} (h : fiber) (rh : fiber_activation_record) (s : state)
    (after : state -> Res A -> Prop) (r' : Res A) : Prop :=
  exists k',
    r' = Switch (current_ s) (ptr_ h)
           (entered (ptr_ h) (set_force_unwind true rh) s) k' /\
    forall s5 rc r5 cf,
      records s5 !! current_ s5 = Some rc ->
      records (from_cleared rc s5) !! ptr_ h = Some r5 ->
      terminated r5 = true ->
      capture r5 = Some cf ->
      after (unwound (ptr_ h) rc r5 cf s5) (k' s5).

(** The statements of the lambda of [resume_with] after the call of the
    function and after the assignment of its result, the lambda from that
    call on, and [resume] from that call on. *)
Definition lambda_rest (c ptr : Z) : M (Z * Z) :=
  bind (load_fiber c) (fun h =>
  bind (operator_not h) (fun e =>
  bind (store_fiber c (mk_fiber nullptr)) (fun _ =>
  ret (if e then nullptr else ptr, ptr_ h)))).

Definition lambda_body (c ptr : Z) (res : fiber) : M (Z * Z) :=
  bind (assign_temporary c res) (fun _ => lambda_rest c ptr).

Definition lambda_after (c ptr : Z) (r : Res fiber) : Res (Z * Z) :=
  bind_res
    (try_catch_res (bind_res r (lambda_body c ptr))
       (fun e => bind (destroy_local c) (fun _ => throw e)))
    (fun res => bind (destroy_local c) (fun _ => ret res)).

Definition resume_after (c ptr : Z) (r : Res fiber) : Res fiber :=
  bind_res (lambda_after c ptr r)
    (fun res => bind current (fun cur' =>
                bind (modify cur' (set_ontop None)) (fun _ =>
                ret (mk_fiber (snd res))))).


(** In state [s] a [resume] that called an on-top function returns a
    handle wrapping the pointer of [res], the handle object [c] gone and the
    on-top slot of the current record cleared. *)
Definition returns_handle (c : Z) (res : fiber) (s : state) (r' : Res fiber) : Prop :=
  ptr_ res = nullptr \/ is_Some (records s !! ptr_ res) ->
  forall r3, records s !! current_ s = Some r3 ->
    r' = Done (mk_fiber (ptr_ res)) (ontop_cleared r3 (set_objects (delete c) s)) /\
    forall r4, records (ontop_cleared r3 (set_objects (delete c) s)) !! current_ s
                 = Some r4 -> ontop r4 = None.


(** How a [resume] or [resume_with] that found an on-top function ends for
    each way [l] that function can end. *)
Definition resume_outcome (c : Z) (l : Res fiber) (r' : Res fiber) : Prop :=
  match l with
  | Done res s3 =>
      (consumed c s3 -> returns_handle c res s3 r') /\
      (forall h rh, left_unfinished c s3 h rh ->
         unwinds h rh (set_objects <[c := res]> s3)
           (fun s6 x => objects s6 !! c = Some res -> returns_handle c res s6 x) r')
  | Raised e s3 =>
      (consumed c s3 -> r' = Raised e (set_objects (delete c) s3)) /\
      (forall h rh, left_unfinished c s3 h rh ->
         unwinds h rh s3 (fun s6 x => x = Raised e (set_objects (delete c) s6)) r')
  | Aborted msg s3 => r' = Aborted msg s3
  | Fault s3 => r' = Fault s3
  | Switch _ _ _ _ => True
  end.

(** The statements of [run] from the call of the context function on. *)
Definition run_after (ontop_code : fn_id -> Z -> M fiber) (this c : Z) (r : Res fiber)
    : Res unit :=
  bind_res (try_catch_res (bind_res r (assign_temporary c)) (run_catch c))
    (fun _ => run_epilogue ontop_code this c).




(** ** Sample programs and states *)

Module Scenario.

Definition main_record : Z := 4096.
Definition heap_base : Z := 1048576.
Definition sizeof_record : Z := 256.
Definition stacks : StackAlloc := mk_StackAlloc 65536.

(** On-top functions.  0, 1 and 2 take their parameter by value: 0 hands
    the handle through, 1 destroys it and returns an empty handle, 2 moves
    it into the handle object at address 10 and returns an empty handle.
    Any other takes a [fiber&&], leaves its argument as it is and returns
    an empty handle. *)
Definition ontops (fn : fn_id) : Z -> M fiber :=
  match fn with
  | O => by_value ret
  | 1%nat => by_value (fun c => bind (fiber_dtor c) (fun _ => ret (mk_fiber nullptr)))
  | 2%nat => by_value (fun c => bind (store_fiber 10 c) (fun _ => ret (mk_fiber nullptr)))
  | _ => fun _ => ret (mk_fiber nullptr)
  end.

(** Leave mark [n] and hand control back, [count] times, counting up. *)
Fixpoint count_up (count : nat) (n : Z) (c : fiber) : M fiber :=
  match count with
  | O => ret c
  | S count' =>
      bind (emit (ev_user n)) (fun _ =>
      bind (fiber_resume ontops c) (count_up count' (n + 1)))
  end.

(** Context functions.  0, 1 and 2 take their parameter by value: 0 leaves
    a mark and returns to its resumer; 1 leaves a mark, hands control back
    once, leaves a second mark and returns; 2 counts to three, handing
    control back after each step.  3 takes a [fiber&&], leaves its argument
    as it is and returns a handle to the main context.  Any other takes its
    parameter by value and returns at once. *)
Definition closures (fn : fn_id) : Z -> M fiber :=
  match fn with
  | O => by_value (fun c => bind (emit (ev_user 1)) (fun _ => ret c))
  | 1%nat =>
      by_value (fun c =>
        bind (emit (ev_user 1)) (fun _ =>
        bind (fiber_resume ontops c) (fun c' =>
        bind (emit (ev_user 2)) (fun _ => ret c'))))
  | 2%nat => by_value (count_up 3 1)
  | 3%nat => fun _ => ret (mk_fiber main_record)
  | _ => by_value ret
  end.

(** Resume a fiber [count] times, leaving mark [n] after each return. *)
Fixpoint resume_times (count : nat) (n : Z) (f : fiber) : M fiber :=
  match count with
  | O => ret f
  | S count' =>
      bind (fiber_resume ontops f) (fun f' =>
      bind (emit (ev_user n)) (fun _ => resume_times count' (n + 10) f'))
  end.

(** Three round trips with the counting fiber, a fourth resume that lets it
    fall through, a look at the handle, and the drop. *)
Definition round_trips : M unit :=
  bind (fiber_construct sizeof_record stacks 2%nat) (fun f =>
  bind (resume_times 4 10 f) (fun f' =>
  bind (operator_bool f') (fun live =>
  bind (emit (ev_user (if live then 1000 else 2000))) (fun _ =>
  fiber_dtor f')))).

(** Two handle objects at addresses 10 and 20, the first owning the fresh
    fiber, the second empty. *)
Definition two_handles (s : state) : state :=
  set_objects (fun _ => <[10 := mk_fiber 1136384]> (<[20 := mk_fiber nullptr]> ∅)) s.

(** Construct a fiber and drop the handle without resuming it. *)
Definition drop_fresh (fn : fn_id) : M unit :=
  bind (fiber_construct sizeof_record stacks fn) fiber_dtor.

(** Resume a fiber once, then drop the handle that came back. *)
Definition resume_then_drop (fn : fn_id) : M unit :=
  bind (fiber_construct sizeof_record stacks fn) (fun f =>
  bind (fiber_resume ontops f) fiber_dtor).

(** Resume a fiber, then resume the handle that came back once more. *)
Definition resume_twice (fn : fn_id) : M unit :=
  bind (fiber_construct sizeof_record stacks fn) (fun f =>
  bind (fiber_resume ontops f) (fun f' =>
  bind (fiber_resume ontops f') fiber_dtor)).

Definition s_main : state := thread_start main_record heap_base.

(** The state right after a fiber over context function [fn] was built,
    and the address of its record. *)
Definition s_fresh (fn : fn_id) : state :=
  match fiber_construct sizeof_record stacks fn s_main with
  | Done _ s => s
  | _ => s_main
  end.

Definition fresh_record : Z := 1136384.

Definition with_record (p : Z) (f : fiber_activation_record -> fiber_activation_record)
    (s : state) : state :=
  match records s !! p with
  | Some r => set_records <[p := f r]> s
  | None => s
  end.

Definition record_at (p : Z) (s : state) : fiber_activation_record :=
  default main_record_init (records s !! p).

(** The fresh fiber entered from the main context for the first time. *)
Definition s_entered (fn : fn_id) : state :=
  entered fresh_record (record_at fresh_record (s_fresh fn)) (s_fresh fn).

(** The main context as it is when [from_] has just switched back to it,
    plainly, under forced unwinding, and with on-top function [fn]
    pending. *)
Definition s_back (from_ : Z) (s : state) : state :=
  with_record main_record (set_from from_) s.

(** The fresh fiber marked as run to completion. *)
Definition s_terminated (fn : fn_id) : state :=
  with_record fresh_record finished (s_fresh fn).

(** The handle object of the trampoline of the fresh fiber, and the
    states in which the trampoline calls the context function and in which
    a context function that took its argument runs. *)
Definition run_handle : Z := local_address (s_entered 0%nat).


Definition s_running (fn : fn_id) : state :=
  set_objects <[run_handle := mk_fiber nullptr]> (s_entered fn).















(** A region of 4096 bytes ending at address 8192. *)
Definition low_region : stack_context := mk_stack_context 4096 8192.

End Scenario.

(** ** The rest of the header *)

(** The free function [swap(fiber&, fiber&)]. *)
Definition swap (l r : Z) : M unit := fiber_swap l r.

(** The handle objects after [this = std::move(other)] between different
    objects, and while the destructor of the temporary runs. *)
Definition moved_objects (tmp this other : Z) (old new : fiber) (m : gmap Z fiber)
    : gmap Z fiber :=
  <[tmp := old]> (<[this := new]> (<[other := mk_fiber nullptr]>
    (<[tmp := new]> (<[tmp := mk_fiber nullptr]> m)))).

(** The stack of a fiber over record [p] that is suspended in a [resume]
    made directly by its context function, with [rest] as the remainder of
    that function and [c] as the handle object of its trampoline: what the
    scheduler keeps for it. *)
Definition suspended_in_resume (ontop_code : fn_id -> Z -> M fiber) (p c : Z)
    (rest : fiber -> M fiber) (s' : state) : Res unit :=
  noexcept_res
    (bind_res
       (try_catch_res
          (bind_res
             (bind_res (bind_res (exchange_current_from s') (after_transfer ontop_code))
                rest)
             (assign_temporary c))
          (run_catch c))
       (fun _ => run_epilogue ontop_code p c)).

(** The stack of a record suspended in a [resume] whose result goes to
    [rest]. *)
Definition waiting_in_resume (ontop_code : fn_id -> Z -> M fiber)
    (rest : fiber -> M unit) (s' : state) : Res unit :=
  bind_res (bind_res (exchange_current_from s') (after_transfer ontop_code)) rest.

(** A context that has been running before: the scheduler resumes it from
    its saved stack. *)
Definition has_run (r : fiber_activation_record) : Prop :=
  context r = fiber_started \/ exists a n, context r = fiber_from_current a n.

(** ** More sample states *)

Module MoreScenarios.
Import Scenario.

(** The state before the thread has a main-context record. *)
Definition s_blank : state := mk_state ∅ nullptr ∅ heap_base [].

(** The remainder of context function 1 after its [resume]. *)
Definition rest_of_one (c : fiber) : M fiber :=
  bind (emit (ev_user 2)) (fun _ => ret c).

(** Context functions that hand control back at once and then go on as
    context function 1 does. *)
Definition yielding (fn : fn_id) : Z -> M fiber :=
  by_value (fun c => bind (fiber_resume ontops c) rest_of_one).


(** The main context running while the fiber over context function 1 is
    suspended in its [resume]. *)
Definition s_suspended : state :=
  set_current_ main_record
    (with_record fresh_record (set_context fiber_started) (s_running 1%nat)).

(** What the scheduler keeps in that state, for context function 1 and for
    a context function whose remainder returns at once. *)
Definition saved_one : gmap Z (state -> Res unit) :=
  {[ fresh_record := suspended_in_resume ontops fresh_record run_handle rest_of_one ]}.
Definition saved_last : gmap Z (state -> Res unit) :=
  {[ fresh_record := suspended_in_resume ontops fresh_record run_handle ret ]}.

(** A destination handle at address 10 that owns the finished fiber and an
    empty source handle at address 20. *)
Definition finished_and_empty : state := two_handles (s_terminated 0%nat).

(** A preallocated area whose usable part ends at 1100000 inside a region
    that ends at 1146880. *)
Definition inner_area : preallocated :=
  mk_preallocated 1100000 18656 (mk_stack_context 65536 1146880).

End MoreScenarios.

(** ** Basic facts about state access *)

Lemma deref_live (p : Z) (s : state) (r : fiber_activation_record) :
  records s !! p = Some r -> deref p s = Done r s.
Proof. intros H. unfold deref. now rewrite H. Qed.

Lemma modify_live (p : Z) f (s : state) (r : fiber_activation_record) :
  records s !! p = Some r -> modify p f s = Done tt (set_records <[p := f r]> s).
Proof. intros H. unfold modify. now rewrite H. Qed.

Lemma eqb_nullptr_false (p : Z) : p <> nullptr -> (p =? nullptr) = false.
Proof. intros H. now apply Z.eqb_neq. Qed.

(** ** Observers *)

(** C7: [operator bool] answers true exactly for a handle that holds a
    record pointer whose record is not terminated, and [operator!] is its
    negation, also in the way it fails on a dangling pointer. *)
Theorem operator_bool_iff (this : fiber) (s : state) :
  (operator_bool this s = Done true s <->
     ptr_ this <> nullptr /\
     exists r, records s !! ptr_ this = Some r /\ terminated r = false) /\
  operator_not this s = bind (operator_bool this) (fun b => ret (negb b)) s.
Proof.
  unfold operator_bool, operator_not, bind, ret.
  destruct (Z.eqb_spec (ptr_ this) nullptr) as [Hn | Hn]; simpl.
  - split; [| reflexivity].
    split; [discriminate | intros [Hc _]; contradiction].
  - unfold deref. destruct (records s !! ptr_ this) as [r |] eqn:Hr; simpl.
    + split; [| now rewrite negb_involutive].
      split.
      * intros H. split; [assumption |]. exists r. split; [reflexivity |].
        injection H as H. now apply negb_true_iff.
      * intros [_ (r' & Hr' & Ht)]. injection Hr' as <-. now rewrite Ht.
    + split; [| reflexivity].
      split; [discriminate | intros [_ (r' & Hr' & _)]; discriminate].
Qed.

Lemma fiber_dtor_main_ctx (this : fiber) (s : state) (r : fiber_activation_record) :
  records s !! ptr_ this = Some r -> main_ctx r = true -> fiber_dtor this s = Done tt s.
Proof.
  intros Hr Hm.
  unfold fiber_dtor. destruct (ptr_ this =? nullptr); simpl; [reflexivity |].
  unfold bind. rewrite (deref_live _ _ _ Hr). simpl. now rewrite Hm.
Qed.

(** C8: destroying a handle to the main-context record changes nothing:
    the destructor finishes at once in the state it started in, so no flag
    was set, no switch was made and nothing was deallocated, and the record
    is still live with [force_unwind] as it was. *)
Theorem fiber_dtor_main_noop (this : fiber) (s : state) (r : fiber_activation_record) :
  records s !! ptr_ this = Some r ->
  main_ctx r = true ->
  exists s',
    fiber_dtor this s = Done tt s' /\
    s' = s /\
    records s' !! ptr_ this = Some r /\
    trace s' = trace s.
Proof.
  intros Hr Hm. exists s. split; [now apply (fiber_dtor_main_ctx this s r) | auto].
Qed.

(** C9: assigning a handle object to itself leaves every handle object,
    and so the pointer it owns, as it was. *)
Theorem fiber_self_move_assign (tmp x : Z) (s : state) :
  fiber_move_assign tmp x x s = Done tt s /\
  forall s', fiber_move_assign tmp x x s = Done tt s' -> objects s' !! x = objects s !! x.
Proof.
  unfold fiber_move_assign. rewrite Z.eqb_refl. simpl. split; [reflexivity |].
  intros s' H. now injection H as <-.
Qed.

Lemma deallocate_capture (p : Z) (s : state) (r : fiber_activation_record) (cf : capture_fields) :
  records s !! p = Some r -> capture r = Some cf -> terminated r = true ->
  deallocate p s =
    Done tt (mk_state (delete p (records s)) (current_ s) (objects s) (brk s)
               (trace s ++ freed_events r cf)).
Proof.
  intros Hr Hc Ht. unfold deallocate, destroy, noexcept, bind.
  rewrite (deref_live _ _ _ Hr). simpl. rewrite Hc, Ht. simpl.
  destruct (main_ctx r); simpl;
  rewrite (deref_live _ _ _ Hr); simpl; rewrite Hc; simpl.
  all: unfold record_dtor, bind, deref; simpl; rewrite Hr; simpl.
  all: unfold freed_events.
  all: destruct (negb (asyncify_stack r =? nullptr) && asyncify_stack_owned r); simpl.
  all: unfold salloc_deallocate, delete_array, emit, add_event, set_records; simpl.
  all: rewrite <- ?app_assoc; reflexivity.
Qed.

Lemma record_resume_switch (this : Z) (s : state) (r : fiber_activation_record) :
  records s !! this = Some r ->
  record_resume this s = Switch (current_ s) this (entered this r s) exchange_current_from.
Proof.
  intros Hr. unfold record_resume, bind, current. simpl.
  rewrite (modify_live _ _ _ _ Hr). simpl.
  unfold deref. simpl. rewrite lookup_insert_eq. simpl. reflexivity.
Qed.

Lemma exchange_current_from_live (s : state) (rc : fiber_activation_record) :
  records s !! current_ s = Some rc ->
  exchange_current_from s = Done (from rc) (from_cleared rc s).
Proof.
  intros Hr. unfold exchange_current_from, bind, current. simpl.
  rewrite (deref_live _ _ _ Hr). simpl.
  rewrite (modify_live _ _ _ _ Hr). reflexivity.
Qed.

Lemma count_occ_freed (l : list event) (r : fiber_activation_record) (cf : capture_fields) :
  count_occ event_eq_dec (l ++ freed_events r cf) (ev_deallocate (sctx r)) =
    S (count_occ event_eq_dec l (ev_deallocate (sctx r))).
Proof.
  unfold freed_events.
  destruct (negb (asyncify_stack r =? nullptr) && asyncify_stack_owned r); cbn [app];
    rewrite count_occ_app;
    repeat (rewrite count_occ_cons_neq by discriminate);
    rewrite count_occ_cons_eq by reflexivity; rewrite count_occ_nil; lia.
Qed.

Lemma fiber_dtor_switch (this : fiber) (s : state) (r : fiber_activation_record) :
  ptr_ this <> nullptr ->
  records s !! ptr_ this = Some r ->
  main_ctx r = false ->
  terminated r = false ->
  fiber_dtor this s =
    Switch (current_ s) (ptr_ this) (entered (ptr_ this) (set_force_unwind true r) s)
      (dtor_after_switch (ptr_ this)).
Proof.
  intros Hn Hr Hm Ht.
  unfold fiber_dtor. rewrite (eqb_nullptr_false _ Hn). simpl.
  unfold bind at 1. rewrite (deref_live _ _ _ Hr). simpl. rewrite Hm, Ht. simpl.
  unfold bind. rewrite (modify_live _ _ _ _ Hr). simpl.
  erewrite record_resume_switch by (simpl; apply lookup_insert_eq).
  simpl. unfold entered, set_current_, set_records. simpl.
  rewrite insert_insert_eq. reflexivity.
Qed.

Lemma dtor_after_switch_unterminated (p : Z) (s2 : state) (rc r' : fiber_activation_record) :
  records s2 !! current_ s2 = Some rc ->
  records (from_cleared rc s2) !! p = Some r' ->
  terminated r' = false ->
  dtor_after_switch p s2 = Aborted "ptr_->terminated" (from_cleared rc s2).
Proof.
  intros Hrc Hr' Ht. unfold dtor_after_switch.
  rewrite (exchange_current_from_live _ _ Hrc). simpl. unfold bind.
  rewrite (deref_live _ _ _ Hr'). simpl. now rewrite Ht.
Qed.

Lemma dtor_after_switch_terminated (p : Z) (s2 : state) (rc r' : fiber_activation_record)
    (cf : capture_fields) :
  records s2 !! current_ s2 = Some rc ->
  records (from_cleared rc s2) !! p = Some r' ->
  terminated r' = true ->
  capture r' = Some cf ->
  dtor_after_switch p s2 =
    Done tt (mk_state (delete p (records (from_cleared rc s2))) (current_ s2) (objects s2)
               (brk s2) (trace s2 ++ freed_events r' cf)).
Proof.
  intros Hrc Hr' Ht Hcf. unfold dtor_after_switch.
  rewrite (exchange_current_from_live _ _ Hrc). simpl. unfold bind.
  rewrite (deref_live _ _ _ Hr'). simpl. rewrite Ht. simpl.
  now rewrite (deallocate_capture _ _ _ _ Hr' Hcf Ht).
Qed.

(** C1: the destructor of a non-empty handle to a record that is neither
    the main context nor terminated sets [force_unwind] on the record and
    switches into it.  When control is back it reads the record again: a
    record that is still not terminated stops the destructor at its
    assertion, with nothing deallocated; for a terminated capture record it
    then deallocates, which destroys the closure, removes the record and
    hands the stack to the allocator exactly once. *)
Theorem fiber_dtor_unfinished (this : fiber) (s : state) (r : fiber_activation_record) :
  ptr_ this <> nullptr ->
  records s !! ptr_ this = Some r ->
  main_ctx r = false ->
  terminated r = false ->
  exists k,
    fiber_dtor this s =
      Switch (current_ s) (ptr_ this) (entered (ptr_ this) (set_force_unwind true r) s) k /\
    (exists r1, records (entered (ptr_ this) (set_force_unwind true r) s) !! ptr_ this = Some r1 /\
                force_unwind r1 = true) /\
    forall s2 rc r',
      records s2 !! current_ s2 = Some rc ->
      records (from_cleared rc s2) !! ptr_ this = Some r' ->
      (terminated r' = false ->
         k s2 = Aborted "ptr_->terminated" (from_cleared rc s2)) /\
      (terminated r' = true ->
         forall cf, capture r' = Some cf ->
         exists s4,
           k s2 = Done tt s4 /\
           records s4 = delete (ptr_ this) (records (from_cleared rc s2)) /\
           trace s4 = trace s2 ++ freed_events r' cf /\
           count_occ event_eq_dec (trace s4) (ev_deallocate (sctx r')) =
             S (count_occ event_eq_dec (trace s2) (ev_deallocate (sctx r')))).
Proof.
  intros Hn Hr Hm Ht.
  exists (dtor_after_switch (ptr_ this)). split; [| split].
  - now apply fiber_dtor_switch.
  - eexists. split; [unfold entered; simpl; apply lookup_insert_eq | reflexivity].
  - intros s2 rc r' Hrc Hr'. split.
    + now apply dtor_after_switch_unterminated.
    + intros Ht' cf Hcf.
      rewrite (dtor_after_switch_terminated _ _ _ _ _ Hrc Hr' Ht' Hcf).
      eexists. split; [reflexivity |]. simpl. repeat split.
      apply count_occ_freed.
Qed.

(** ** Handle objects *)

Lemma load_fiber_live (x : Z) (s : state) (v : fiber) :
  objects s !! x = Some v -> load_fiber x s = Done v s.
Proof. intros H. unfold load_fiber. now rewrite H. Qed.

Lemma local_address_fresh (s : state) : objects s !! local_address s = None.
Proof.
  unfold local_address. apply not_elem_of_dom.
  pose proof (is_fresh ({[nullptr]} ∪ dom (objects s))) as H.
  intros Hin. apply H. apply elem_of_union. now right.
Qed.

Lemma local_address_not_null (s : state) : local_address s <> nullptr.
Proof.
  unfold local_address.
  pose proof (is_fresh ({[nullptr]} ∪ dom (objects s))) as H.
  intros Heq. apply H. apply elem_of_union. left. rewrite Heq. now apply elem_of_singleton.
Qed.

Lemma assign_temporary_consumed (c : Z) (v : fiber) (s : state) :
  consumed c s -> assign_temporary c v s = Done tt (set_objects <[c := v]> s).
Proof.
  intros H. unfold assign_temporary, bind. rewrite (load_fiber_live _ _ _ H). reflexivity.
Qed.

Lemma assign_temporary_left (c : Z) (v : fiber) (s : state) (h : fiber)
    (rh : fiber_activation_record) :
  left_unfinished c s h rh ->
  assign_temporary c v s =
    Switch (current_ s) (ptr_ h)
      (entered (ptr_ h) (set_force_unwind true rh) (set_objects <[c := v]> s))
      (dtor_after_switch (ptr_ h)).
Proof.
  intros (Hc & Hn & Hr & Hm & Ht). unfold assign_temporary, bind.
  rewrite (load_fiber_live _ _ _ Hc). simpl.
  now rewrite (fiber_dtor_switch h (set_objects <[c := v]> s) rh Hn Hr Hm Ht).
Qed.

Lemma destroy_local_consumed (c : Z) (s : state) :
  consumed c s -> destroy_local c s = Done tt (set_objects (delete c) s).
Proof.
  intros H. unfold destroy_local, bind. rewrite (load_fiber_live _ _ _ H). reflexivity.
Qed.

Lemma destroy_local_left (c : Z) (s : state) (h : fiber) (rh : fiber_activation_record) :
  left_unfinished c s h rh ->
  destroy_local c s =
    Switch (current_ s) (ptr_ h) (entered (ptr_ h) (set_force_unwind true rh) s)
      (fun s' => bind_res (dtor_after_switch (ptr_ h) s') (fun _ => end_local c)).
Proof.
  intros (Hc & Hn & Hr & Hm & Ht). unfold destroy_local, bind.
  rewrite (load_fiber_live _ _ _ Hc). simpl.
  now rewrite (fiber_dtor_switch h s rh Hn Hr Hm Ht).
Qed.

(** The destructor of a handle to [p] when its switch is answered with [p]
    terminated. *)
Lemma dtor_after_switch_unwound (p : Z) (s5 : state) (rc r5 : fiber_activation_record)
    (cf : capture_fields) :
  records s5 !! current_ s5 = Some rc ->
  records (from_cleared rc s5) !! p = Some r5 ->
  terminated r5 = true ->
  capture r5 = Some cf ->
  dtor_after_switch p s5 = Done tt (unwound p rc r5 cf s5).
Proof. intros Hrc Hr5 Ht Hcf. now apply dtor_after_switch_terminated. Qed.

(** The handle objects once a local that was assigned and then emptied is
    gone. *)
Lemma objects_after_local (c : Z) (v : fiber) (s : state) :
  set_objects (delete c)
    (set_objects <[c := mk_fiber nullptr]> (set_objects <[c := v]> s)) =
  set_objects (delete c) s.
Proof.
  unfold set_objects. simpl. now rewrite !delete_insert_eq.
Qed.

(** ** Computations that make the same switches *)

Lemma mirrors_through {A B} (leaf : Res A -> Res B -> Prop) (F : Res A -> Res B) :
  (forall a b s k, F (Switch a b s k) = Switch a b s (fun x => F (k x))) ->
  (forall r, match r with Switch _ _ _ _ => True | _ => leaf r (F r) end) ->
  forall r, mirrors leaf r (F r).
Proof.
  intros HS HL. induction r as [x s | e s | msg s | s | a b s k IH].
  - exact (HL (Done x s)).
  - exact (HL (Raised e s)).
  - exact (HL (Aborted msg s)).
  - exact (HL (Fault s)).
  - rewrite HS. simpl. repeat split. exact IH.
Qed.





(** ** The transfer: resume and resume_with *)

Section Transfer.

Variable ontop_code : fn_id -> Z -> M fiber.

Lemma after_transfer_unwind (ptr : Z) (s : state) (rc : fiber_activation_record) :
  records s !! current_ s = Some rc -> force_unwind rc = true ->
  after_transfer ontop_code ptr s = Raised (forced_unwind ptr) s.
Proof.
  intros Hr Hf. unfold after_transfer, bind, current. simpl.
  rewrite (deref_live _ _ _ Hr). simpl. now rewrite Hf.
Qed.

Lemma after_transfer_plain (ptr : Z) (s : state) (rc : fiber_activation_record) :
  records s !! current_ s = Some rc -> force_unwind rc = false -> ontop rc = None ->
  after_transfer ontop_code ptr s = Done (mk_fiber ptr) s.
Proof.
  intros Hr Hf Ho. unfold after_transfer, bind, current. simpl.
  rewrite (deref_live _ _ _ Hr). simpl. now rewrite Hf, Ho.
Qed.

Lemma operator_not_total (c : fiber) (s : state) :
  ptr_ c = nullptr \/ is_Some (records s !! ptr_ c) ->
  exists b, operator_not c s = Done b s.
Proof.
  intros H. unfold operator_not.
  destruct (Z.eqb_spec (ptr_ c) nullptr) as [Hn | Hn]; [now exists true |].
  destruct H as [H | [r Hr]]; [contradiction |].
  unfold bind. rewrite (deref_live _ _ _ Hr). simpl. now eexists.
Qed.


Lemma after_transfer_ontop (ptr : Z) (s : state) (rc : fiber_activation_record)
    (fn : fn_id) :
  records s !! current_ s = Some rc -> force_unwind rc = false -> ontop rc = Some fn ->
  after_transfer ontop_code ptr s =
    resume_after (local_address s) ptr
      (ontop_code fn (local_address s)
         (set_objects <[local_address s := mk_fiber ptr]> s)).
Proof.
  intros Hr Hf Ho. unfold after_transfer, bind at 1 2, current. simpl.
  rewrite (deref_live _ _ _ Hr). simpl. rewrite Hf, Ho. reflexivity.
Qed.

(** The lambda once its handle object [c] holds the result [res]. *)
Lemma lambda_rest_holding (c ptr : Z) (res : fiber) (s : state) (b : bool) :
  objects s !! c = Some res ->
  operator_not res s = Done b s ->
  bind_res
    (try_catch_res (lambda_rest c ptr s)
       (fun e => bind (destroy_local c) (fun _ => throw e)))
    (fun res => bind (destroy_local c) (fun _ => ret res)) =
  Done (if b then nullptr else ptr, ptr_ res) (set_objects (delete c) s).
Proof.
  intros Hc Hb. unfold lambda_rest, bind at 1.
  rewrite (load_fiber_live _ _ _ Hc). simpl. unfold bind at 1. rewrite Hb. simpl.
  unfold bind at 1. simpl.
  rewrite destroy_local_consumed by (unfold consumed; simpl; apply lookup_insert_eq).
  simpl. unfold ret, set_objects. simpl. now rewrite delete_insert_eq.
Qed.


Lemma returns_handle_holds (c ptr : Z) (res : fiber) (s : state) :
  objects s !! c = Some res ->
  returns_handle c res s
    (bind_res
       (bind_res
          (try_catch_res (lambda_rest c ptr s)
             (fun e => bind (destroy_local c) (fun _ => throw e)))
          (fun res => bind (destroy_local c) (fun _ => ret res)))
       (fun res => bind current (fun cur' =>
                   bind (modify cur' (set_ontop None)) (fun _ =>
                   ret (mk_fiber (snd res)))))).
Proof.
  intros Hc Hlive r3 Hr3.
  destruct (operator_not_total res s Hlive) as [b Hb].
  rewrite (lambda_rest_holding c ptr res s b Hc Hb). simpl.
  unfold bind, current. simpl.
  rewrite (modify_live _ _ (set_objects (delete c) s) r3 Hr3). simpl. split.
  - reflexivity.
  - intros r4 Hr4. unfold ontop_cleared in Hr4. simpl in Hr4.
    rewrite lookup_insert_eq in Hr4. now injection Hr4 as <-.
Qed.

(** The state in which the lambda goes on when its function took the
    handle out of [c]. *)
Lemma assigned_delete (c : Z) (res : fiber) (s : state) :
  set_objects (delete c) (set_objects <[c := res]> s) = set_objects (delete c) s.
Proof. unfold set_objects. simpl. now rewrite delete_insert_eq. Qed.


Lemma resume_outcome_holds (c ptr : Z) (r : Res fiber) :
  mirrors (resume_outcome c) r (resume_after c ptr r).
Proof.
  apply mirrors_through; [reflexivity |].
  intros [res s3 | e s3 | msg s3 | s3 | a b s k]; simpl; try reflexivity; try exact I.
  - split.
    + intros Hc. unfold resume_after, lambda_after, lambda_body. simpl. unfold bind at 1.
      rewrite (assign_temporary_consumed _ _ _ Hc). cbn [bind_res].
      pose proof (returns_handle_holds c ptr res (set_objects <[c := res]> s3)) as H.
      unfold returns_handle in H |- *. rewrite !assigned_delete in H.
      intros Hlive r3 Hr3. apply H; [simpl; apply lookup_insert_eq | exact Hlive | exact Hr3].
    + intros h rh Hleft. unfold resume_after, lambda_after, lambda_body. simpl.
      unfold bind at 1.
      rewrite (assign_temporary_left c res s3 h rh Hleft). simpl.
      eexists. split; [reflexivity |].
      intros s5 rc r5 cf Hrc Hr5 Ht Hcf Hc. cbn beta.
      rewrite (dtor_after_switch_unwound _ _ _ _ _ Hrc Hr5 Ht Hcf). cbn [bind_res].
      now apply returns_handle_holds.
  - split.
    + intros Hc. unfold resume_after, lambda_after. simpl. unfold bind.
      now rewrite (destroy_local_consumed _ _ Hc).
    + intros h rh Hleft. unfold resume_after, lambda_after. simpl. unfold bind.
      rewrite (destroy_local_left c s3 h rh Hleft). simpl.
      eexists. split; [reflexivity |].
      intros s5 rc r5 cf Hrc Hr5 Ht Hcf. cbn beta.
      now rewrite (dtor_after_switch_unwound _ _ _ _ _ Hrc Hr5 Ht Hcf).
Qed.

Lemma fiber_resume_switch (this : fiber) (s : state) (r : fiber_activation_record) :
  ptr_ this <> nullptr -> records s !! ptr_ this = Some r ->
  fiber_resume ontop_code this s =
    Switch (current_ s) (ptr_ this) (entered (ptr_ this) r s)
      (fun s' => bind_res (exchange_current_from s') (after_transfer ontop_code)).
Proof.
  intros Hn Hr. unfold fiber_resume, bind at 1.
  rewrite (eqb_nullptr_false _ Hn). simpl.
  unfold bind. now rewrite (record_resume_switch _ _ _ Hr).
Qed.

Lemma fiber_resume_at_switch (x : Z) (this : fiber) (s : state)
    (r : fiber_activation_record) :
  objects s !! x = Some this ->
  ptr_ this <> nullptr -> records s !! ptr_ this = Some r ->
  fiber_resume_at ontop_code x s =
    Switch (current_ s) (ptr_ this)
      (entered (ptr_ this) r (set_objects <[x := mk_fiber nullptr]> s))
      (fun s' => bind_res (exchange_current_from s') (after_transfer ontop_code)).
Proof.
  intros Hx Hn Hr. unfold fiber_resume_at, bind at 1.
  rewrite (load_fiber_live _ _ _ Hx). simpl. unfold bind at 1.
  rewrite (eqb_nullptr_false _ Hn). simpl.
  unfold bind. simpl.
  now rewrite (record_resume_switch (ptr_ this) (set_objects <[x := mk_fiber nullptr]> s) r Hr).
Qed.

Lemma record_resume_with_switch (this : Z) (fn : fn_id) (s : state)
    (r : fiber_activation_record) :
  records s !! this = Some r ->
  record_resume_with this fn s =
    Switch (current_ s) this (ontop_installed fn this r s) exchange_current_from.
Proof.
  intros Hr. unfold record_resume_with, bind, current. simpl.
  rewrite (modify_live _ _ _ _ Hr). simpl.
  unfold modify, deref. simpl. rewrite lookup_insert_eq. simpl.
  rewrite lookup_insert_eq. simpl.
  unfold ontop_installed, set_current_, set_records. simpl.
  now rewrite insert_insert_eq.
Qed.

Lemma fiber_resume_with_switch (this : fiber) (fn : fn_id) (s : state)
    (r : fiber_activation_record) :
  ptr_ this <> nullptr -> records s !! ptr_ this = Some r ->
  fiber_resume_with ontop_code this fn s =
    Switch (current_ s) (ptr_ this) (ontop_installed fn (ptr_ this) r s)
      (fun s' => bind_res (exchange_current_from s') (after_transfer ontop_code)).
Proof.
  intros Hn Hr. unfold fiber_resume_with, bind at 1.
  rewrite (eqb_nullptr_false _ Hn). simpl.
  unfold bind. now rewrite (record_resume_with_switch _ _ _ _ Hr).
Qed.

Lemma from_cleared_current (rc : fiber_activation_record) (s : state) :
  records (from_cleared rc s) !! current_ (from_cleared rc s) = Some (set_from nullptr rc).
Proof. unfold from_cleared. simpl. apply lookup_insert_eq. Qed.

(** What the call site does when control comes back, in a state [s'] whose
    current record is [rc]. *)
Lemma back_at_call_site (s' : state) (rc : fiber_activation_record) :
  records s' !! current_ s' = Some rc ->
  bind_res (exchange_current_from s') (after_transfer ontop_code) =
    after_transfer ontop_code (from rc) (from_cleared rc s').
Proof. intros Hrc. now rewrite (exchange_current_from_live _ _ Hrc). Qed.

(** The call site when it finds the on-top function [fn]. *)
Lemma back_at_call_site_ontop (s' : state) (rc : fiber_activation_record) (fn : fn_id) :
  records s' !! current_ s' = Some rc ->
  force_unwind rc = false ->
  ontop rc = Some fn ->
  let c := local_address (from_cleared rc s') in
  mirrors (resume_outcome c)
    (ontop_code fn c (set_objects <[c := mk_fiber (from rc)]> (from_cleared rc s')))
    (bind_res (exchange_current_from s') (after_transfer ontop_code)).
Proof.
  intros Hrc Hf Ho c. rewrite (back_at_call_site _ _ Hrc).
  rewrite (after_transfer_ontop _ _ (set_from nullptr rc) fn (from_cleared_current _ _))
    by assumption.
  apply resume_outcome_holds.
Qed.



End Transfer.

(** ** The entry trampoline *)







(** The handle objects when a local that held the empty handle was
    assigned and emptied again. *)
Lemma objects_restored (c : Z) (v : fiber) (s : state) :
  consumed c s ->
  set_objects <[c := mk_fiber nullptr]> (set_objects <[c := v]> s) = s.
Proof.
  intros H. destruct s as [recs cur objs b t]. unfold consumed in H. simpl in H.
  unfold set_objects. simpl. rewrite insert_insert_eq. now rewrite (insert_id _ _ _ H).
Qed.

Section Trampoline.

Variable ontop_code : fn_id -> Z -> M fiber.
Variable code : fn_id -> Z -> M fiber.

Lemma run_unfold (this : Z) (s : state) (r : fiber_activation_record) (cf : capture_fields) :
  records s !! this = Some r -> capture r = Some cf ->
  run ontop_code code this s =
    run_after ontop_code this (local_address s)
      (code (fn_ cf) (local_address s)
         (set_objects <[local_address s := mk_fiber (from r)]> s)).
Proof.
  intros Hr Hc. unfold run, bind at 1. rewrite (deref_live _ _ _ Hr). simpl.
  rewrite Hc. reflexivity.
Qed.

Lemma run_epilogue_switch (this c : Z) (h : fiber) (s1 : state)
    (r1 rt : fiber_activation_record) :
  objects s1 !! c = Some h ->
  records s1 !! this = Some r1 ->
  ptr_ h <> nullptr ->
  records (run_finished this r1 s1) !! ptr_ h = Some rt ->
  run_epilogue ontop_code this c s1 =
    Switch (current_ s1) (ptr_ h)
      (entered (ptr_ h) rt
         (run_finished this r1 (set_objects <[c := mk_fiber nullptr]> s1)))
      (after_last_transfer ontop_code).
Proof.
  intros Hc Hr1 Hn Hrt. unfold run_epilogue, bind.
  rewrite (modify_live _ _ _ _ Hr1). simpl.
  unfold modify. simpl. rewrite !lookup_insert_eq. simpl.
  rewrite !lookup_insert_eq. simpl. rewrite !lookup_insert_eq. simpl.
  unfold set_records at 1 2 3 4. simpl. rewrite !insert_insert_eq.
  change (mk_state _ (current_ s1) (objects s1) (brk s1) (trace s1))
    with (run_finished this r1 s1).
  rewrite (fiber_resume_at_switch _ c h (run_finished this r1 s1) rt Hc Hn Hrt). reflexivity.
Qed.

(** The last transfer when the handle object [c], emptied by the context
    function, has been assigned the final handle [res]. *)
Lemma run_epilogue_assigned (this c : Z) (res : fiber) (s1 : state)
    (r1 rt : fiber_activation_record) :
  consumed c s1 ->
  records s1 !! this = Some r1 ->
  ptr_ res <> nullptr ->
  records (run_finished this r1 s1) !! ptr_ res = Some rt ->
  run_epilogue ontop_code this c (set_objects <[c := res]> s1) =
    Switch (current_ s1) (ptr_ res) (entered (ptr_ res) rt (run_finished this r1 s1))
      (after_last_transfer ontop_code).
Proof.
  intros Hc Hr1 Hn Hrt.
  rewrite (run_epilogue_switch this c res (set_objects <[c := res]> s1) r1 rt);
    [| simpl; apply lookup_insert_eq | exact Hr1 | exact Hn | exact Hrt].
  now rewrite (objects_restored c res s1 Hc).
Qed.











Lemma fiber_entry_func_unfold (data : Z) (s : state) :
  data <> nullptr ->
  fiber_entry_func ontop_code code data s = noexcept_res (run ontop_code code data s).
Proof.
  intros Hn. unfold fiber_entry_func, noexcept, bind.
  now rewrite (eqb_nullptr_false _ Hn).
Qed.






(** The destructor of a handle to a record that was never entered: the
    scheduler answers the switch by starting the entry function, and the
    trampoline calls the context function on a handle to the record that
    runs the destructor. *)
Lemma fiber_dtor_fresh_invokes (n : nat) (main running : Z)
    (saved : gmap Z (state -> Res unit)) (p : Z) (s : state)
    (r : fiber_activation_record) (cf : capture_fields) (b sz a asz : Z) :
  p <> nullptr ->
  records s !! p = Some r ->
  main_ctx r = false ->
  terminated r = false ->
  capture r = Some cf ->
  context r = fiber_entry p b sz a asz ->
  exists s' c,
    trace s' = trace s /\
    objects s' !! c = Some (mk_fiber (current_ s)) /\
    exec ontop_code code (S n) main saved running (fiber_dtor (mk_fiber p) s) =
      exec ontop_code code n main (<[current_ s := dtor_after_switch p]> saved) p
        (noexcept_res (run_after ontop_code p c (code (fn_ cf) c s'))).
Proof.
  intros Hn Hr Hm Ht Hc Hctx.
  set (s1 := set_records
            <[p := set_context fiber_started (set_from (current_ s) (set_force_unwind true r))]>
            (entered p (set_force_unwind true r) s)).
  exists (set_objects <[local_address s1 := mk_fiber (current_ s)]> s1), (local_address s1).
  split; [reflexivity |]. split; [simpl; apply lookup_insert_eq |].
  rewrite (fiber_dtor_switch (mk_fiber p) s r Hn Hr Hm Ht). simpl.
  rewrite lookup_insert_eq. simpl. rewrite Hctx.
  rewrite (fiber_entry_func_unfold _ _ Hn).
  rewrite (run_unfold p _
             (set_context fiber_started (set_from (current_ s) (set_force_unwind true r))) cf);
    [reflexivity | simpl; apply lookup_insert_eq | exact Hc].
Qed.

End Trampoline.


(** ** Placement of the capture record *)

Lemma to_uintptr_small (x : Z) : 0 <= x < uintptr_modulus -> to_uintptr x = x.
Proof. intros H. unfold to_uintptr. now apply Z.mod_small. Qed.

(** Masking with [~0xff] rounds an address down to a multiple of 256. *)
Lemma mask_rounds_down (x : Z) :
  0 <= x < uintptr_modulus ->
  Z.land x (to_uintptr (Z.lnot 255)) = 256 * (x / 256).
Proof.
  intros Hx.
  assert (Hm : to_uintptr (Z.lnot 255) = Z.land (Z.lnot (Z.ones 8)) (Z.ones 32)).
  { unfold to_uintptr, uintptr_modulus, uintptr_bits.
    rewrite Z.land_ones by lia. reflexivity. }
  rewrite Hm, Z.land_assoc, (Z.land_comm x), <- Z.land_assoc.
  rewrite (Z.land_ones x 32) by lia.
  change (2 ^ 32) with uintptr_modulus. rewrite Z.mod_small by assumption.
  rewrite Z.land_comm, <- Z.ldiff_land, Z.ldiff_ones_r by lia.
  rewrite Z.shiftr_div_pow2, Z.shiftl_mul_pow2 by lia.
  change (2 ^ 8) with 256. lia.
Qed.

Lemma record_address_no_wrap (sizeof_T stack_base : Z) :
  0 < sizeof_T ->
  sizeof_T + 10000 <= stack_base < uintptr_modulus ->
  record_address sizeof_T stack_base = 256 * ((stack_base - sizeof_T - 10000) / 256).
Proof.
  intros Hs Hb. unfold record_address, to_size_t.
  rewrite (to_uintptr_small (sizeof_T + 10000)) by lia.
  rewrite (to_uintptr_small (stack_base - _)) by lia.
  rewrite mask_rounds_down by lia. f_equal. f_equal. lia.
Qed.

(** When the subtraction does not wrap, a construction that passes the
    assertion puts the record inside the region, above its bottom and
    below the asyncify stack, which ends at the original stack pointer and
    is not owned by the record. *)
Lemma allocate_and_init_record_no_wrap (sizeof_T : Z) (sctx_ : stack_context)
    (stack_base : Z) (salloc : StackAlloc) (fn : fn_id) (s : state) :
  0 < sizeof_T ->
  sizeof_T + 10000 <= stack_base ->
  stack_base <= sp sctx_ < uintptr_modulus ->
  0 <= size sctx_ <= sp sctx_ ->
  let bottom := sp sctx_ - size sctx_ in
  let rp := 256 * ((stack_base - sizeof_T - 10000) / 256) in
  (rp <= bottom ->
     allocate_and_init_record sizeof_T sctx_ stack_base salloc fn s =
       Aborted "record_ptr > stack_bottom" s) /\
  (bottom < rp ->
     bottom < rp /\ rp + sizeof_T + 10000 <= stack_base /\
     exists s' r,
       allocate_and_init_record sizeof_T sctx_ stack_base salloc fn s = Done (rp, rp) s' /\
       records s' !! rp = Some r /\
       asyncify_stack r = rp + sizeof_T /\
       asyncify_stack_size r = sp sctx_ - (rp + sizeof_T) /\
       asyncify_stack_owned r = false /\
       main_ctx r = false /\ terminated r = false /\ sctx r = sctx_ /\
       context r = fiber_entry rp bottom (rp - bottom) (rp + sizeof_T)
                     (sp sctx_ - (rp + sizeof_T)) /\
       trace s' = trace s /\
       forall s2, records s2 !! rp = Some r ->
         record_dtor rp s2 = Done tt (set_records (delete rp) s2)).
Proof.
  intros Hs Hb Hsp Hsz bottom rp.
  assert (Hrp : record_address sizeof_T stack_base = rp)
    by (apply record_address_no_wrap; lia).
  assert (Hbot : region_bottom sctx_ = bottom)
    by (unfold region_bottom; apply to_uintptr_small; subst bottom; lia).
  assert (Hdiv : rp <= stack_base - sizeof_T - 10000 < rp + 256).
  { subst rp. pose proof (Z.mod_pos_bound (stack_base - sizeof_T - 10000) 256).
    pose proof (Z.div_mod (stack_base - sizeof_T - 10000) 256). lia. }
  unfold allocate_and_init_record. rewrite Hrp, Hbot. split.
  - intros Hle. unfold bind. simpl.
    destruct (Z.ltb_spec bottom rp); [lia | reflexivity].
  - intros Hlt. split; [assumption |]. split; [lia |].
    unfold bind. simpl. destruct (Z.ltb_spec bottom rp); [| lia]. simpl.
    unfold modify, deref, emscripten_fiber_init, modify. simpl.
    rewrite !lookup_insert_eq. simpl. rewrite !lookup_insert_eq. simpl.
    rewrite !lookup_insert_eq. simpl.
    eexists _, _. split; [reflexivity |]. simpl.
    rewrite lookup_insert_eq. split; [reflexivity |]. simpl.
    unfold to_size_t.
    rewrite (to_uintptr_small (rp + sizeof_T)) by lia.
    rewrite (to_uintptr_small (sp sctx_ - _)) by lia.
    rewrite (to_uintptr_small (rp - bottom)) by (subst bottom; lia).
    repeat (split; [reflexivity |]).
    intros s2 Hr2. unfold record_dtor, bind. rewrite (deref_live _ _ _ Hr2). simpl.
    rewrite andb_false_r. reflexivity.
Qed.

(** ** The scenarios *)

Module ScenarioFacts.
Import Scenario.

(** C2: a fiber that is constructed and dropped without ever being resumed
    has its context function run by the destructor: the mark of the function
    is in the trace before the stack is freed.  When the function hands
    control back instead of returning, the destructor stops at its own
    assertion with the stack never freed. *)
Theorem fresh_fiber_destroyed_runs_closure :
  (exists s,
     run_program ontops closures 100 main_record heap_base (drop_fresh 0%nat) = Finished s /\
     trace s = [ev_new_array 1048576 32768;
                ev_allocate (mk_stack_context 65536 1146880);
                ev_user 1;
                ev_destroy_fn 0%nat;
                ev_deallocate (mk_stack_context 65536 1146880)]) /\
  (exists s,
     run_program ontops closures 100 main_record heap_base (drop_fresh 1%nat) =
       AssertionFailed "ptr_->terminated" s /\
     trace s = [ev_new_array 1048576 32768;
                ev_allocate (mk_stack_context 65536 1146880);
                ev_user 1]).
Proof.
  split; eexists; (split; [vm_compute; reflexivity | reflexivity]).
Qed.

(** The same fiber resumed once before the drop is unwound instead: the
    second mark of context function 1 never appears. *)
Example resumed_fiber_destroyed_unwinds :
  exists s,
    run_program ontops closures 100 main_record heap_base (resume_then_drop 1%nat) =
      Finished s /\
    trace s = [ev_new_array 1048576 32768;
               ev_allocate (mk_stack_context 65536 1146880);
               ev_user 1;
               ev_destroy_fn 1%nat;
               ev_deallocate (mk_stack_context 65536 1146880)].
Proof. eexists. split; [vm_compute; reflexivity | reflexivity]. Qed.

Example counting_fiber_round_trips :
  exists s,
    run_program ontops closures 100 main_record heap_base round_trips = Finished s /\
    trace s = [ev_new_array 1048576 32768;
               ev_allocate (mk_stack_context 65536 1146880);
               ev_user 1; ev_user 10; ev_user 2; ev_user 20; ev_user 3; ev_user 30;
               ev_user 40; ev_user 2000;
               ev_destroy_fn 2%nat;
               ev_deallocate (mk_stack_context 65536 1146880)].
Proof. eexists. split; [vm_compute; reflexivity | reflexivity]. Qed.

(** Between two different handle objects the assignment moves the pointer
    and leaves the source empty. *)
Example move_assign_between_objects :
  exists s,
    fiber_move_assign 30 20 10 (two_handles (s_fresh 0%nat)) = Done tt s /\
    objects s !! 20 = Some (mk_fiber fresh_record) /\
    objects s !! 10 = Some (mk_fiber nullptr) /\
    objects s !! 30 = None.
Proof. eexists. split; [vm_compute; reflexivity |]. repeat split. Qed.

Example terminated_fiber_resumed_aborts :
  exists s,
    run_program ontops closures 100 main_record heap_base (resume_twice 0%nat) =
      AssertionFailed "continuation already terminated" s.
Proof. eexists. vm_compute. reflexivity. Qed.

(** C10: over the region [4096, 8192) the subtraction wraps; the assertion
    passes and the record is constructed at an address far outside the
    region. *)
Theorem record_outside_low_region :
  exists s' r,
    fiber_construct_preallocated sizeof_record (mk_preallocated 8192 4096 low_region)
      stacks 0%nat s_main = Done (mk_fiber 4294964992) s' /\
    records s' !! 4294964992 = Some r /\
    region_bottom low_region = 4096 /\
    sp low_region = 8192 /\
    ~ (region_bottom low_region <= 4294964992 < sp low_region).
Proof.
  eexists _, _. split; [vm_compute; reflexivity |].
  split; [vm_compute; reflexivity |].
  split; [reflexivity |]. split; [reflexivity |].
  vm_compute. intros [_ H]. discriminate H.
Qed.

End ScenarioFacts.

(** ** The theorems at concrete states *)

Module Witnesses.
Import Scenario.

Ltac evaluate := vm_compute; first [reflexivity | discriminate | tauto].

Lemma fiber_dtor_main_noop_witness :
  exists s',
    fiber_dtor (mk_fiber main_record) s_main = Done tt s' /\
    s' = s_main /\
    records s' !! main_record = Some (record_at main_record s_main) /\
    trace s' = trace s_main.
Proof.
  apply (fiber_dtor_main_noop (mk_fiber main_record) s_main (record_at main_record s_main));
    evaluate.
Defined.

Lemma fiber_dtor_unfinished_witness :
  let s := s_fresh 1%nat in
  let r := record_at fresh_record s in
  let s2 := s_back fresh_record (s_terminated 1%nat) in
  exists k,
    fiber_dtor (mk_fiber fresh_record) s =
      Switch main_record fresh_record (entered fresh_record (set_force_unwind true r) s) k /\
    (exists s3, k (s_back fresh_record s) = Aborted "ptr_->terminated" s3) /\
    (exists s4, k s2 = Done tt s4 /\
       records s4 !! fresh_record = None /\
       count_occ event_eq_dec (trace s4) (ev_deallocate (sctx r)) = 1%nat).
Proof.
  intros s r s2.
  destruct (fiber_dtor_unfinished (mk_fiber fresh_record) s r) as (k & Hk & _ & Hback);
    [evaluate | evaluate | evaluate | evaluate |].
  exists k. split; [exact Hk |]. split.
  - destruct (Hback (s_back fresh_record s) (record_at main_record (s_back fresh_record s)) r)
      as [Habort _]; [evaluate | evaluate |].
    eexists. apply Habort. evaluate.
  - destruct (Hback s2 (record_at main_record s2) (record_at fresh_record s2))
      as [_ Hfree]; [evaluate | evaluate |].
    destruct (Hfree ltac:(evaluate) (mk_capture stacks 1%nat) ltac:(evaluate))
      as (s4 & Hs4 & Hrec & _ & Hcount).
    exists s4. split; [exact Hs4 |]. split.
    + rewrite Hrec. apply lookup_delete_eq.
    + exact Hcount.
Defined.






End Witnesses.

(** * Further properties of the header *)

(** ** Handle objects: swap, move construction, move assignment *)

Lemma state_eta (s : state) :
  mk_state (records s) (current_ s) (objects s) (brk s) (trace s) = s.
Proof. now destruct s. Qed.

(** X1: [swap] exchanges the pointers of two handle objects, touches no
    other object and no record, and a second [swap] restores the state;
    swapping an object with itself changes nothing. *)
Theorem swap_exchanges (l r : Z) (s : state) (a b : fiber) :
  objects s !! l = Some a ->
  objects s !! r = Some b ->
  exists s1,
    swap l r s = Done tt s1 /\
    objects s1 !! l = Some b /\
    objects s1 !! r = Some a /\
    (forall x, x <> l -> x <> r -> objects s1 !! x = objects s !! x) /\
    records s1 = records s /\ trace s1 = trace s /\
    swap l r s1 = Done tt s /\
    (l = r -> s1 = s).
Proof.
  intros Hl Hr. unfold swap, fiber_swap, bind, load_fiber, store_fiber.
  rewrite Hl. simpl. rewrite Hr. simpl.
  eexists. split; [reflexivity |]. simpl.
  assert (Hb : (<[r:=a]> (<[l:=b]> (objects s)) : gmap Z fiber) !! l = Some b).
  { destruct (decide (l = r)) as [-> | Hne].
    - rewrite lookup_insert_eq. congruence.
    - rewrite lookup_insert_ne by congruence. apply lookup_insert_eq. }
  assert (Hback : (<[r:=b]> (<[l:=a]> (<[r:=a]> (<[l:=b]> (objects s)))) : gmap Z fiber)
                  = objects s).
  { apply map_eq. intros x.
    destruct (decide (x = r)) as [-> | Hxr]; [now rewrite lookup_insert_eq |].
    rewrite lookup_insert_ne by congruence.
    destruct (decide (x = l)) as [-> | Hxl]; [now rewrite lookup_insert_eq |].
    now rewrite !lookup_insert_ne by congruence. }
  split; [exact Hb |]. split; [apply lookup_insert_eq |].
  split; [intros x Hxl Hxr; now rewrite !lookup_insert_ne by congruence |].
  split; [reflexivity |]. split; [reflexivity |]. split.
  - rewrite Hb. simpl. rewrite lookup_insert_eq. simpl.
    unfold set_objects. simpl. rewrite Hback. now rewrite state_eta.
  - intros ->. assert (a = b) by congruence. subst b.
    unfold set_objects. simpl. rewrite insert_insert_eq, insert_id by assumption.
    apply state_eta.
Qed.

(** ** Destruction without a switch *)

Lemma fiber_dtor_empty (this : fiber) (s : state) :
  ptr_ this = nullptr -> fiber_dtor this s = Done tt s.
Proof. intros H. unfold fiber_dtor. now rewrite H. Qed.

Lemma fiber_dtor_terminated (this : fiber) (s : state) (r : fiber_activation_record)
    (cf : capture_fields) :
  ptr_ this <> nullptr ->
  records s !! ptr_ this = Some r ->
  main_ctx r = false ->
  terminated r = true ->
  capture r = Some cf ->
  fiber_dtor this s =
    Done tt (mk_state (delete (ptr_ this) (records s)) (current_ s) (objects s) (brk s)
               (trace s ++ freed_events r cf)).
Proof.
  intros Hn Hr Hm Ht Hc. unfold fiber_dtor. rewrite (eqb_nullptr_false _ Hn). simpl.
  unfold bind at 1. rewrite (deref_live _ _ _ Hr). simpl. rewrite Hm, Ht. simpl.
  unfold bind. simpl. now rewrite (deallocate_capture _ _ _ _ Hr Hc Ht).
Qed.

(** X2: the destructor of an empty handle does nothing; the destructor of
    a handle to a terminated capture record makes no switch and sets no
    flag: it destroys the closure, removes the record, gives the stack
    back exactly once, and leaves every other record as it was. *)
Theorem fiber_dtor_without_switch (this : fiber) (s : state) :
  (ptr_ this = nullptr -> fiber_dtor this s = Done tt s) /\
  (forall r cf,
     ptr_ this <> nullptr ->
     records s !! ptr_ this = Some r ->
     main_ctx r = false ->
     terminated r = true ->
     capture r = Some cf ->
     exists s',
       fiber_dtor this s = Done tt s' /\
       records s' !! ptr_ this = None /\
       (forall q, q <> ptr_ this -> records s' !! q = records s !! q) /\
       current_ s' = current_ s /\
       trace s' = trace s ++ freed_events r cf /\
       count_occ event_eq_dec (trace s') (ev_deallocate (sctx r)) =
         S (count_occ event_eq_dec (trace s) (ev_deallocate (sctx r)))).
Proof.
  split; [apply fiber_dtor_empty |].
  intros r cf Hn Hr Hm Ht Hc.
  rewrite (fiber_dtor_terminated this s r cf Hn Hr Hm Ht Hc).
  eexists. split; [reflexivity |]. simpl.
  split; [apply lookup_delete_eq |].
  split; [intros q Hq; now apply lookup_delete_ne |].
  split; [reflexivity |]. split; [reflexivity |]. apply count_occ_freed.
Qed.

(** The state in which the destructor of the temporary of a move
    assignment runs. *)
Lemma fiber_move_assign_unfold (tmp this other : Z) (s : state) (old new : fiber) :
  this <> other -> tmp <> this -> tmp <> other ->
  objects s !! this = Some old ->
  objects s !! other = Some new ->
  fiber_move_assign tmp this other s =
    bind_res (fiber_dtor old (set_objects (moved_objects tmp this other old new) s))
      (fun _ s' => Done tt (set_objects (delete tmp) s')).
Proof.
  intros Hto Htt Hot Hthis Hother. unfold fiber_move_assign.
  destruct (Z.eqb_spec this other) as [| _]; [contradiction |]. simpl.
  unfold fiber_move_construct, fiber_swap, bind, load_fiber, store_fiber. simpl.
  repeat (first [ rewrite lookup_insert_eq
                | rewrite lookup_insert_ne by congruence
                | rewrite Hother
                | rewrite Hthis ]; simpl).
  reflexivity.
Qed.

(** The assignment [c = <temporary>] is this assignment with the temporary
    as [other]: it destroys the same handle [old] once [this] holds [new],
    in a state that differs only in the handle objects [tmp] and [other]
    of the operator. *)
Lemma assign_temporary_unfold (this : Z) (s : state) (old new : fiber) :
  objects s !! this = Some old ->
  assign_temporary this new s = fiber_dtor old (set_objects <[this := new]> s).
Proof.
  intros Hthis. unfold assign_temporary, bind. now rewrite (load_fiber_live _ _ _ Hthis).
Qed.

Lemma moved_objects_elsewhere (tmp this other : Z) (old new : fiber) (m : gmap Z fiber)
    (q : Z) :
  q <> tmp -> q <> other ->
  moved_objects tmp this other old new m !! q = <[this := new]> m !! q.
Proof.
  intros Hqt Hqo. unfold moved_objects.
  rewrite lookup_insert_ne by congruence.
  destruct (Z.eq_dec q this) as [-> | Hq].
  - now rewrite !lookup_insert_eq.
  - now rewrite !lookup_insert_ne by congruence.
Qed.

Lemma moved_objects_lookup (tmp this other : Z) (old new : fiber) (m : gmap Z fiber) :
  this <> other -> tmp <> this -> tmp <> other ->
  delete tmp (moved_objects tmp this other old new m) !! this = Some new /\
  delete tmp (moved_objects tmp this other old new m) !! other = Some (mk_fiber nullptr) /\
  delete tmp (moved_objects tmp this other old new m) !! tmp = None /\
  (forall x, x <> this -> x <> other -> x <> tmp ->
     delete tmp (moved_objects tmp this other old new m) !! x = m !! x).
Proof.
  intros Hto Htt Hot. unfold moved_objects. repeat split.
  - rewrite lookup_delete_ne, lookup_insert_ne by congruence. apply lookup_insert_eq.
  - rewrite lookup_delete_ne, !lookup_insert_ne by congruence. apply lookup_insert_eq.
  - apply lookup_delete_eq.
  - intros x H1 H2 H3. rewrite lookup_delete_ne by congruence.
    now rewrite !lookup_insert_ne by congruence.
Qed.

(** X3: move assignment between two different handle objects gives the
    destination the pointer of the source and leaves the source empty.
    What the destination held is destroyed: nothing happens for an empty
    handle, and a terminated fiber is deallocated, its stack freed once. *)
Theorem fiber_move_assign_transfers (tmp this other : Z) (s : state) (old new : fiber) :
  this <> other -> tmp <> this -> tmp <> other ->
  objects s !! this = Some old ->
  objects s !! other = Some new ->
  (ptr_ old = nullptr \/
   exists r cf, ptr_ old <> nullptr /\ records s !! ptr_ old = Some r /\
                main_ctx r = false /\ terminated r = true /\ capture r = Some cf) ->
  exists s',
    fiber_move_assign tmp this other s = Done tt s' /\
    objects s' !! this = Some new /\
    objects s' !! other = Some (mk_fiber nullptr) /\
    objects s' !! tmp = None /\
    (forall x, x <> this -> x <> other -> x <> tmp -> objects s' !! x = objects s !! x) /\
    (ptr_ old = nullptr -> records s' = records s /\ trace s' = trace s) /\
    (forall r cf, ptr_ old <> nullptr -> records s !! ptr_ old = Some r ->
       capture r = Some cf ->
       records s' = delete (ptr_ old) (records s) /\
       trace s' = trace s ++ freed_events r cf).
Proof.
  intros Hto Htt Hot Hthis Hother Hold.
  rewrite (fiber_move_assign_unfold tmp this other s old new) by assumption.
  destruct (moved_objects_lookup tmp this other old new (objects s) Hto Htt Hot)
    as (H1 & H2 & H3 & H4).
  destruct Hold as [Hnull | (r & cf & Hn & Hr & Hm & Ht & Hc)].
  - rewrite fiber_dtor_empty by assumption. simpl.
    eexists. split; [reflexivity |]. simpl.
    repeat (split; [assumption |]). split; [auto |].
    intros r cf Hn. contradiction.
  - rewrite (fiber_dtor_terminated old _ r cf) by assumption. simpl.
    eexists. split; [reflexivity |]. simpl.
    repeat (split; [assumption |]). split; [intros Hnull; contradiction |].
    intros r' cf' _ Hr' Hc'. assert (r' = r) by congruence. subst r'.
    assert (cf' = cf) by congruence. subst cf'. auto.
Qed.

(** X4: move assignment over a handle to a fiber that has not finished
    first gives the destination its new pointer and then destroys the old
    fiber the way [~fiber] does: [force_unwind] is set on its record and
    control switches into it. *)
Theorem fiber_move_assign_unwinds (tmp this other : Z) (s : state) (old new : fiber)
    (r : fiber_activation_record) :
  this <> other -> tmp <> this -> tmp <> other ->
  objects s !! this = Some old ->
  objects s !! other = Some new ->
  ptr_ old <> nullptr ->
  records s !! ptr_ old = Some r ->
  main_ctx r = false ->
  terminated r = false ->
  exists s1 k r1,
    fiber_move_assign tmp this other s = Switch (current_ s) (ptr_ old) s1 k /\
    objects s1 !! this = Some new /\
    objects s1 !! other = Some (mk_fiber nullptr) /\
    current_ s1 = ptr_ old /\
    records s1 !! ptr_ old = Some r1 /\
    force_unwind r1 = true /\ from r1 = current_ s /\
    trace s1 = trace s.
Proof.
  intros Hto Htt Hot Hthis Hother Hn Hr Hm Ht.
  rewrite (fiber_move_assign_unfold tmp this other s old new) by assumption.
  rewrite (fiber_dtor_switch old _ r) by assumption. simpl.
  eexists _, _, _. split; [reflexivity |]. simpl. unfold moved_objects.
  split; [rewrite lookup_insert_ne by congruence; apply lookup_insert_eq |].
  split; [rewrite !lookup_insert_ne by congruence; apply lookup_insert_eq |].
  split; [reflexivity |].
  split; [apply lookup_insert_eq |]. auto.
Qed.

(** ** Ordering of handles *)

(** X5: [operator<] is a strict total order on the pointers of handles:
    irreflexive, transitive, and two handles are unordered exactly when
    they hold the same pointer (in particular two empty handles). *)
Theorem operator_lt_strict_total (a b c : fiber) :
  operator_lt a a = false /\
  (operator_lt a b = true -> operator_lt b c = true -> operator_lt a c = true) /\
  (operator_lt a b = true -> operator_lt b a = false) /\
  (operator_lt a b = false /\ operator_lt b a = false <-> ptr_ a = ptr_ b).
Proof.
  unfold operator_lt. rewrite !Z.ltb_lt, !Z.ltb_ge.
  repeat split; lia.
Qed.

(** ** The main-context record and its asyncify stack *)

(** X6: the toplevel constructor builds a main-context record that owns an
    asyncify stack of [1 << 15] bytes obtained with [new]; a second
    allocation for the same record is refused by the assertion; and the
    destructor of the record deletes exactly the array it allocated. *)
Theorem main_record_owns_asyncify_stack (this : Z) (s : state) :
  brk s <> nullptr ->
  exists s1 r,
    construct_main_record this s = Done tt s1 /\
    records s1 !! this = Some r /\
    main_ctx r = true /\ terminated r = false /\ force_unwind r = false /\
    asyncify_stack r = brk s /\
    asyncify_stack_size r = 32768 /\
    asyncify_stack_owned r = true /\
    context r = fiber_from_current (brk s) 32768 /\
    brk s1 = brk s + 32768 /\
    trace s1 = trace s ++ [ev_new_array (brk s) 32768] /\
    allocate_asyncify_stack this s1 = Aborted "!asyncify_stack" s1 /\
    exists s2,
      record_dtor this s1 = Done tt s2 /\
      records s2 !! this = None /\
      trace s2 = trace s1 ++ [ev_delete_array (brk s)].
Proof.
  intros Hb. unfold construct_main_record, allocate_asyncify_stack, bind,
    emscripten_fiber_init_from_current_context, new_array, modify, deref. simpl.
  rewrite lookup_insert_eq. simpl. rewrite lookup_insert_eq. simpl.
  rewrite lookup_insert_eq. simpl. rewrite lookup_insert_eq. simpl.
  eexists _, _. split; [reflexivity |]. simpl.
  rewrite lookup_insert_eq. split; [reflexivity |]. simpl.
  repeat (split; [reflexivity |]).
  split.
  - now rewrite (eqb_nullptr_false _ Hb).
  - unfold record_dtor, bind, deref. simpl. rewrite ?lookup_insert_eq. simpl.
    rewrite (eqb_nullptr_false _ Hb). simpl.
    eexists. split; [reflexivity |]. simpl.
    split; [apply lookup_delete_eq | reflexivity].
Qed.

(** ** Transfers between two records *)

Section RoundTrips.

Variable ontop_code : fn_id -> Z -> M fiber.

Lemma from_cleared_other (rc : fiber_activation_record) (s : state) (q : Z) :
  q <> current_ s -> records (from_cleared rc s) !! q = records s !! q.
Proof. intros H. unfold from_cleared. simpl. now apply lookup_insert_ne. Qed.

(** X7: a transfer is symmetric.  When record [a] resumes [b] and [b]
    later resumes [a] back, the [resume] of [a] returns a handle to [b];
    [a] is current again, its [from] is null, and nothing else changed
    since [b] made its transfer. *)
Theorem resume_round_trip (a b : Z) (s s2 : state) (rb r2 : fiber_activation_record) :
  current_ s = a ->
  b <> nullptr ->
  records s !! b = Some rb ->
  a <> nullptr ->
  current_ s2 = b ->
  records s2 !! a = Some r2 ->
  force_unwind r2 = false ->
  ontop r2 = None ->
  exists ka kb s3,
    fiber_resume ontop_code (mk_fiber b) s = Switch a b (entered b rb s) ka /\
    fiber_resume ontop_code (mk_fiber a) s2 = Switch b a (entered a r2 s2) kb /\
    ka (entered a r2 s2) = Done (mk_fiber b) s3 /\
    current_ s3 = a /\
    records s3 !! a = Some (set_from nullptr r2) /\
    (forall q, q <> a -> records s3 !! q = records s2 !! q) /\
    trace s3 = trace s2.
Proof.
  intros Hcur Hb Hrb Ha Hcur2 Hr2 Hf Ho.
  eexists _, _, _. split; [| split; [| split]].
  - rewrite <- Hcur. now apply fiber_resume_switch.
  - rewrite <- Hcur2. now apply fiber_resume_switch.
  - simpl.
    assert (Hc : records (entered a r2 s2) !! current_ (entered a r2 s2) =
                 Some (set_from (current_ s2) r2)).
    { unfold entered. simpl. apply lookup_insert_eq. }
    rewrite (back_at_call_site _ _ _ Hc).
    rewrite (after_transfer_plain _ _ _ _ (from_cleared_current _ _)) by assumption.
    simpl. rewrite Hcur2. reflexivity.
  - simpl. split; [reflexivity |]. split.
    + rewrite lookup_insert_eq. reflexivity.
    + split; [| reflexivity]. intros q Hq. now rewrite !lookup_insert_ne by congruence.
Qed.

(** X8: [resume_with] delivers its function to the other side.  When [a]
    calls [resume_with(fn)] on a record [b] that is suspended in a
    [resume], that [resume] of [b] calls [fn] on a handle object [c]
    holding a handle to [a] and makes the switches [fn] makes.  When [fn]
    returns at once having taken the handle out of [c], the [resume]
    returns the handle [fn] produced and leaves the on-top slot of [b]
    empty; when [fn] returns leaving in [c] a handle to an unfinished
    fiber, the [resume] destroys that handle, which forces the fiber to
    unwind. *)
Theorem resume_with_delivers (a b : Z) (fn : fn_id) (s sb : state) (hx : fiber)
    (rb : fiber_activation_record) (a0 b0 : Z) (s0 : state) (kb : state -> Res fiber) :
  fiber_resume ontop_code hx sb = Switch a0 b0 s0 kb ->
  current_ s = a ->
  b <> nullptr ->
  records s !! b = Some rb ->
  force_unwind rb = false ->
  let s1 := ontop_installed fn b rb s in
  let rb1 := set_ontop (Some fn) (set_from a rb) in
  let c := local_address (from_cleared rb1 s1) in
  let sc := set_objects <[c := mk_fiber a]> (from_cleared rb1 s1) in
  exists ka,
    fiber_resume_with ontop_code (mk_fiber b) fn s = Switch a b s1 ka /\
    objects sc !! c = Some (mk_fiber a) /\
    mirrors (resume_outcome c) (ontop_code fn c sc) (kb s1) /\
    forall res s3,
      ontop_code fn c sc = Done res s3 ->
      (consumed c s3 ->
       ptr_ res = nullptr \/ is_Some (records s3 !! ptr_ res) ->
       forall r3, records s3 !! current_ s3 = Some r3 ->
         kb s1 = Done (mk_fiber (ptr_ res))
                   (ontop_cleared r3 (set_objects (delete c) s3)) /\
         records (ontop_cleared r3 (set_objects (delete c) s3)) !! current_ s3 =
           Some (set_ontop None r3)) /\
      (forall h rh, left_unfinished c s3 h rh ->
         unwinds h rh (set_objects <[c := res]> s3)
           (fun s6 x => objects s6 !! c = Some res -> returns_handle c res s6 x) (kb s1)).
Proof.
  intros Hkb Hcur Hb Hrb Hf s1 rb1 c sc.
  assert (Hkb' : kb = fun s' => bind_res (exchange_current_from s')
                                  (after_transfer ontop_code)).
  { unfold fiber_resume, bind in Hkb.
    destruct (negb (ptr_ hx =? nullptr)); simpl in Hkb; [| discriminate].
    unfold record_resume, bind, current, modify in Hkb. simpl in Hkb.
    destruct (records sb !! ptr_ hx); simpl in Hkb; [| discriminate].
    unfold deref in Hkb. simpl in Hkb. rewrite lookup_insert_eq in Hkb. simpl in Hkb.
    now injection Hkb as _ _ _ <-. }
  assert (Hc1 : records s1 !! current_ s1 = Some rb1).
  { subst s1 rb1. unfold ontop_installed. simpl. rewrite lookup_insert_eq.
    now rewrite Hcur. }
  assert (Hm : mirrors (resume_outcome c) (ontop_code fn c sc) (kb s1)).
  { rewrite Hkb'. exact (back_at_call_site_ontop ontop_code s1 rb1 fn Hc1 Hf eq_refl). }
  eexists. split; [| split; [| split]].
  - rewrite <- Hcur. now apply fiber_resume_with_switch.
  - unfold sc. simpl. apply lookup_insert_eq.
  - exact Hm.
  - intros res s3 Hfn. rewrite Hfn in Hm. simpl in Hm. destruct Hm as [Hdone Hleft].
    split; [| exact Hleft].
    intros Hc Hlive r3 Hr3. destruct (Hdone Hc Hlive r3 Hr3) as [Hk _].
    split; [exact Hk |]. unfold ontop_cleared. simpl. apply lookup_insert_eq.
Qed.

(** X9: the handle a finished fiber leaves behind.  When the trampoline of
    record [p] makes its last transfer into a record [cur] that is
    suspended in a [resume], that [resume] returns a handle to [p]; the
    handle tests false, and destroying it deallocates [p] without any
    further switch. *)
Theorem finished_fiber_handle (p cur : Z) (s1 : state)
    (r1 rt : fiber_activation_record) (cf : capture_fields)
    (hx : fiber) (sx : state) (a0 b0 : Z) (s0 : state) (k : state -> Res fiber) :
  fiber_resume ontop_code hx sx = Switch a0 b0 s0 k ->
  current_ s1 = p ->
  p <> nullptr ->
  cur <> p ->
  records s1 !! p = Some r1 ->
  main_ctx r1 = false ->
  capture r1 = Some cf ->
  records s1 !! cur = Some rt ->
  force_unwind rt = false ->
  ontop rt = None ->
  exists s4,
    k (entered cur rt (run_finished p r1 s1)) = Done (mk_fiber p) s4 /\
    current_ s4 = cur /\
    operator_bool (mk_fiber p) s4 = Done false s4 /\
    operator_not (mk_fiber p) s4 = Done true s4 /\
    exists s5,
      fiber_dtor (mk_fiber p) s4 = Done tt s5 /\
      records s5 !! p = None /\
      trace s5 = trace s1 ++ freed_events r1 cf.
Proof.
  intros Hk Hcur Hp Hne Hr1 Hm Hc Hrt Hf Ho.
  assert (Hk' : k = fun s' => bind_res (exchange_current_from s')
                                (after_transfer ontop_code)).
  { unfold fiber_resume, bind in Hk.
    destruct (negb (ptr_ hx =? nullptr)); simpl in Hk; [| discriminate].
    unfold record_resume, bind, current, modify in Hk. simpl in Hk.
    destruct (records sx !! ptr_ hx); simpl in Hk; [| discriminate].
    unfold deref in Hk. simpl in Hk. rewrite lookup_insert_eq in Hk. simpl in Hk.
    now injection Hk as _ _ _ <-. }
  set (sl := entered cur rt (run_finished p r1 s1)).
  assert (Hc1 : records sl !! current_ sl = Some (set_from p rt)).
  { subst sl. unfold entered. simpl. rewrite lookup_insert_eq. now rewrite Hcur. }
  assert (Hp4 : records (from_cleared (set_from p rt) sl) !! p = Some (finished r1)).
  { rewrite from_cleared_other by (subst sl; simpl; congruence).
    subst sl. unfold entered, run_finished. simpl.
    rewrite lookup_insert_ne by congruence. apply lookup_insert_eq. }
  eexists. split; [| split; [| split; [| split]]].
  - rewrite Hk'. rewrite (back_at_call_site _ _ _ Hc1).
    now rewrite (after_transfer_plain _ _ _ _ (from_cleared_current _ _)).
  - reflexivity.
  - unfold operator_bool. simpl. rewrite (eqb_nullptr_false _ Hp). simpl.
    unfold bind. now rewrite (deref_live _ _ _ Hp4).
  - unfold operator_not. simpl. rewrite (eqb_nullptr_false _ Hp).
    unfold bind. now rewrite (deref_live _ _ _ Hp4).
  - rewrite (fiber_dtor_terminated (mk_fiber p) _ (finished r1) cf); auto.
    eexists. split; [reflexivity |]. simpl. split; [apply lookup_delete_eq | reflexivity].
Qed.

End RoundTrips.

(** ** Whole cycles under the scheduler *)

Section Cycles.

Variable ontop_code : fn_id -> Z -> M fiber.
Variable code : fn_id -> Z -> M fiber.

(** One step of the scheduler into a context that has run before. *)
Lemma exec_switch_saved (n : nat) (main running a b : Z)
    (saved : gmap Z (state -> Res unit)) (s : state) (k k' : state -> Res unit)
    (rec : fiber_activation_record) :
  records s !! b = Some rec ->
  has_run rec ->
  <[a := k]> saved !! b = Some k' ->
  exec ontop_code code (S n) main saved running (Switch a b s k) =
    exec ontop_code code n main (delete b (<[a := k]> saved)) b (k' s).
Proof.
  intros Hrec Hrun Hk'. simpl. rewrite Hrec.
  destruct Hrun as [Hc | (x & y & Hc)]; rewrite Hc, Hk'; reflexivity.
Qed.

(** X10: destroying the handle to a fiber that is suspended in a [resume]
    of its context function, which took the handle out of the handle object
    [c] of the trampoline, drives one unwinding cycle and comes back: the
    remainder of the context function never runs, the record is gone, its
    stack is freed exactly once, nothing else is added to the trace, and
    the destroyer goes on as the current context. *)
Theorem forced_unwind_cycle (n : nat) (main running p : Z)
    (saved : gmap Z (state -> Res unit)) (s : state)
    (r rc : fiber_activation_record) (cf : capture_fields) (c : Z)
    (rest : fiber -> M fiber) (after : unit -> M unit) :
  p <> nullptr ->
  current_ s <> nullptr ->
  current_ s <> p ->
  records s !! p = Some r ->
  main_ctx r = false ->
  terminated r = false ->
  capture r = Some cf ->
  context r = fiber_started ->
  records s !! current_ s = Some rc ->
  has_run rc ->
  consumed c s ->
  saved !! p = Some (suspended_in_resume ontop_code p c rest) ->
  exists s' saved',
    exec ontop_code code (S (S n)) main saved running
      (bind_res (fiber_dtor (mk_fiber p) s) after) =
    exec ontop_code code n main saved' (current_ s) (after tt s') /\
    records s' !! p = None /\
    records s' !! current_ s = Some (set_from nullptr rc) /\
    (forall q, q <> p -> q <> current_ s -> records s' !! q = records s !! q) /\
    current_ s' = current_ s /\
    trace s' = trace s ++ freed_events r cf /\
    count_occ event_eq_dec (trace s') (ev_deallocate (sctx r)) =
      S (count_occ event_eq_dec (trace s) (ev_deallocate (sctx r))) /\
    saved' !! current_ s = None /\
    (forall q, q <> p -> q <> current_ s -> saved' !! q = saved !! q).
Proof.
  intros Hp Hcn Hne Hr Hm Ht Hc Hctx Hrc Hrun Hcons Hsaved.
  set (cur := current_ s) in *.
  rewrite (fiber_dtor_switch (mk_fiber p) s r Hp Hr Hm Ht).
  cbn [bind_res ptr_]. fold cur.
  set (s1 := entered p (set_force_unwind true r) s).
  set (kd := fun s' : state => bind_res (dtor_after_switch p s') after).
  (* into the fiber *)
  rewrite (exec_switch_saved (S n) main running cur p saved s1 kd
             (suspended_in_resume ontop_code p c rest)
             (set_from cur (set_force_unwind true r))).
  2: { subst s1. unfold entered. simpl. apply lookup_insert_eq. }
  2: { left. exact Hctx. }
  2: { rewrite lookup_insert_ne by congruence. exact Hsaved. }
  (* the suspended resume raises, the trampoline catches and transfers back *)
  assert (Hc1 : records s1 !! current_ s1 = Some (set_from cur (set_force_unwind true r))).
  { subst s1. unfold entered. simpl. apply lookup_insert_eq. }
  set (r1 := set_from cur (set_force_unwind true r)) in *.
  set (s2 := from_cleared r1 s1).
  assert (Hsusp : suspended_in_resume ontop_code p c rest s1 =
                  Switch p cur (entered cur rc (run_finished p (set_from nullptr r1) s2))
                    (fun s' => noexcept_res (after_last_transfer ontop_code s'))).
  { unfold suspended_in_resume.
    rewrite (back_at_call_site _ _ _ Hc1).
    rewrite (after_transfer_unwind _ _ _ (set_from nullptr r1) (from_cleared_current _ _))
      by reflexivity.
    cbn [bind_res try_catch_res run_catch from r1 set_from]. fold s2.
    rewrite (assign_temporary_consumed c (mk_fiber cur) s2 Hcons).
    cbn [bind_res].
    rewrite (run_epilogue_assigned ontop_code p c (mk_fiber cur) s2 (set_from nullptr r1) rc).
    - reflexivity.
    - exact Hcons.
    - apply from_cleared_current.
    - exact Hcn.
    - unfold run_finished, s2, from_cleared, s1, entered. simpl.
      rewrite !lookup_insert_ne by congruence. exact Hrc. }
  rewrite Hsusp.
  set (s3 := entered cur rc (run_finished p (set_from nullptr r1) s2)).
  set (kt := fun s' : state => noexcept_res (after_last_transfer ontop_code s')).
  rewrite (exec_switch_saved n main p p cur (delete p (<[cur := kd]> saved)) s3 kt kd
             (set_from p rc)).
  2: { subst s3. unfold entered. simpl. apply lookup_insert_eq. }
  2: { destruct Hrun as [H | (x & y & H)]; [left | right; exists x, y]; exact H. }
  2: { rewrite lookup_insert_ne by congruence. rewrite lookup_delete_ne by congruence.
       apply lookup_insert_eq. }
  (* back in the destructor *)
  assert (Hc3 : records s3 !! current_ s3 = Some (set_from p rc)).
  { subst s3. unfold entered. simpl. apply lookup_insert_eq. }
  assert (Hp3 : records (from_cleared (set_from p rc) s3) !! p =
                Some (finished (set_from nullptr r1))).
  { rewrite from_cleared_other by (subst s3; simpl; congruence).
    subst s3. unfold entered, run_finished. simpl.
    rewrite lookup_insert_ne by congruence. apply lookup_insert_eq. }
  subst kd. cbn beta.
  rewrite (dtor_after_switch_terminated p s3 (set_from p rc) _ cf Hc3 Hp3 eq_refl Hc).
  cbn [bind_res].
  eexists _, _. split; [reflexivity |]. cbn [records current_ trace].
  split; [apply lookup_delete_eq |].
  split.
  { rewrite lookup_delete_ne by congruence. unfold from_cleared. simpl.
    rewrite lookup_insert_eq. reflexivity. }
  split.
  { intros q Hqp Hqc. rewrite lookup_delete_ne by congruence.
    unfold from_cleared. simpl. now rewrite !lookup_insert_ne by congruence. }
  split; [reflexivity |].
  split; [reflexivity |].
  split; [apply (count_occ_freed (trace s) r cf) |].
  split; [apply lookup_delete_eq |].
  intros q Hqp Hqc. rewrite lookup_delete_ne by congruence.
  rewrite lookup_insert_ne by congruence. rewrite lookup_delete_ne by congruence.
  now rewrite lookup_insert_ne by congruence.
Qed.

End Cycles.

Section FirstResume.

Variable ontop_code : fn_id -> Z -> M fiber.
Variable code : fn_id -> Z -> M fiber.

(** One step of the scheduler into a context that was initialised and
    never entered. *)
Lemma exec_switch_entry (n : nat) (main running a b : Z)
    (saved : gmap Z (state -> Res unit)) (s : state) (k : state -> Res unit)
    (rec : fiber_activation_record) (arg bot sz ast asz : Z) :
  records s !! b = Some rec ->
  context rec = fiber_entry arg bot sz ast asz ->
  exec ontop_code code (S n) main saved running (Switch a b s k) =
    exec ontop_code code n main (<[a := k]> saved) b
      (fiber_entry_func ontop_code code arg
         (set_records <[b := set_context fiber_started rec]> s)).
Proof. intros Hrec Hc. simpl. now rewrite Hrec, Hc. Qed.

(** X11: nothing of a fiber runs before its first [resume]; that [resume]
    starts the context function on a handle object holding a handle to the
    resumer.  When the context function, taking its parameter by value, at
    once resumes that handle, control is back in the resumer with a handle
    to the fiber, the fiber is kept suspended in its [resume], the handle
    object of its trampoline is empty, and the trace is unchanged. *)
Theorem first_resume_round_trip (n : nat) (main running p : Z)
    (saved : gmap Z (state -> Res unit)) (s : state)
    (r rc : fiber_activation_record) (cf : capture_fields)
    (rest : fiber -> M fiber) (after : fiber -> M unit) (bot sz ast asz : Z) :
  p <> nullptr ->
  current_ s <> nullptr ->
  current_ s <> p ->
  records s !! p = Some r ->
  context r = fiber_entry p bot sz ast asz ->
  capture r = Some cf ->
  records s !! current_ s = Some rc ->
  has_run rc ->
  force_unwind rc = false ->
  ontop rc = None ->
  (forall x s0,
     code (fn_ cf) x s0 =
       by_value (fun h => bind (fiber_resume ontop_code h) rest) x s0) ->
  exists s' saved',
    exec ontop_code code (S (S n)) main saved running
      (bind_res (fiber_resume ontop_code (mk_fiber p) s) after) =
    exec ontop_code code n main saved' (current_ s) (after (mk_fiber p) s') /\
    saved' !! p = Some (suspended_in_resume ontop_code p (local_address s) rest) /\
    saved' !! current_ s = None /\
    (forall q, q <> p -> q <> current_ s -> saved' !! q = saved !! q) /\
    current_ s' = current_ s /\
    records s' !! p = Some (set_context fiber_started (set_from (current_ s) r)) /\
    records s' !! current_ s = Some (set_from nullptr rc) /\
    (forall q, q <> p -> q <> current_ s -> records s' !! q = records s !! q) /\
    objects s' = <[local_address s := mk_fiber nullptr]> (objects s) /\
    trace s' = trace s.
Proof.
  intros Hp Hcn Hne Hr Hctx Hc Hrc Hrun Hf Ho Hcode.
  set (cur := current_ s) in *.
  rewrite (fiber_resume_switch ontop_code (mk_fiber p) s r Hp Hr).
  cbn [bind_res ptr_]. fold cur.
  set (km := fun s' : state =>
               bind_res (bind_res (exchange_current_from s') (after_transfer ontop_code))
                 after).
  rewrite (exec_switch_entry (S n) main running cur p saved (entered p r s) km
             (set_from cur r) p bot sz ast asz).
  2: { unfold entered. simpl. apply lookup_insert_eq. }
  2: { exact Hctx. }
  set (r1 := set_context fiber_started (set_from cur r)).
  set (s1 := set_records <[p := r1]> (entered p r s)).
  assert (Hp1 : records s1 !! p = Some r1) by (subst s1; simpl; apply lookup_insert_eq).
  assert (Hc1 : records s1 !! cur = Some rc).
  { subst s1. unfold entered. simpl. now rewrite !lookup_insert_ne by congruence. }
  rewrite (fiber_entry_func_unfold _ _ _ _ Hp).
  rewrite (run_unfold ontop_code code p s1 r1 cf Hp1 Hc).
  rewrite Hcode.
  change (local_address s1) with (local_address s).
  set (c := local_address s).
  set (s2 := set_objects <[c := mk_fiber nullptr]>
               (set_objects <[c := mk_fiber (from r1)]> s1)).
  assert (Hby : by_value (fun h => bind (fiber_resume ontop_code h) rest) c
                  (set_objects <[c := mk_fiber (from r1)]> s1) =
                bind_res (fiber_resume ontop_code (mk_fiber (from r1)) s2) rest).
  { unfold by_value, bind at 1. unfold load_fiber. simpl. rewrite lookup_insert_eq.
    reflexivity. }
  rewrite Hby.
  assert (Hc2' : records s2 !! cur = Some rc) by exact Hc1.
  rewrite (fiber_resume_switch ontop_code (mk_fiber (from r1)) s2 rc Hcn Hc2').
  unfold run_after.
  cbn [bind_res try_catch_res noexcept_res ptr_ from r1 set_context set_from].
  change (current_ s2) with p.
  set (s3 := entered cur rc s2).
  rewrite (exec_switch_saved ontop_code code n main p p cur (<[cur := km]> saved) s3
             _ km (set_from p rc)).
  2: { subst s3. unfold entered. simpl. apply lookup_insert_eq. }
  2: { exact Hrun. }
  2: { rewrite lookup_insert_ne by congruence. apply lookup_insert_eq. }
  assert (Hc3 : records s3 !! current_ s3 = Some (set_from p rc)).
  { subst s3. unfold entered. simpl. apply lookup_insert_eq. }
  subst km. cbn beta.
  rewrite (back_at_call_site _ _ _ Hc3).
  rewrite (after_transfer_plain _ _ _ _ (from_cleared_current _ _)) by assumption.
  cbn [bind_res from set_from].
  eexists _, _. split; [reflexivity |].
  split.
  { rewrite lookup_delete_ne by congruence. rewrite lookup_insert_eq. reflexivity. }
  split; [apply lookup_delete_eq |].
  split.
  { intros q Hqp Hqc. rewrite lookup_delete_ne by congruence.
    now rewrite !lookup_insert_ne by congruence. }
  split; [reflexivity |].
  unfold from_cleared, s3, entered, s2, s1, entered. simpl.
  split.
  { rewrite !lookup_insert_ne by congruence. apply lookup_insert_eq. }
  split; [apply lookup_insert_eq |].
  split.
  { intros q Hqp Hqc. now rewrite !lookup_insert_ne by congruence. }
  split; [apply insert_insert_eq | reflexivity].
Qed.


End FirstResume.

Section Completion.

Variable ontop_code : fn_id -> Z -> M fiber.
Variable code : fn_id -> Z -> M fiber.

(** X16: resuming a fiber that is suspended in the last [resume] of its
    context function, which took the handle out of the handle object [c] of
    the trampoline and whose remainder returns the handle it gets, finishes
    the fiber: control is back in the resumer with a handle to the fiber,
    the record of the fiber is terminated with [from], [ontop] and
    [force_unwind] cleared, nothing is freed yet, and the handle tests
    false. *)
Theorem completion_cycle (n : nat) (main running p : Z)
    (saved : gmap Z (state -> Res unit)) (s : state)
    (r rc : fiber_activation_record) (c : Z) (rest : fiber -> M fiber)
    (after : fiber -> M unit) :
  p <> nullptr ->
  current_ s <> nullptr ->
  current_ s <> p ->
  records s !! p = Some r ->
  context r = fiber_started ->
  force_unwind r = false ->
  ontop r = None ->
  records s !! current_ s = Some rc ->
  has_run rc ->
  force_unwind rc = false ->
  ontop rc = None ->
  consumed c s ->
  saved !! p = Some (suspended_in_resume ontop_code p c rest) ->
  (forall h s0, rest h s0 = Done h s0) ->
  exists s' saved',
    exec ontop_code code (S (S n)) main saved running
      (bind_res (fiber_resume ontop_code (mk_fiber p) s) after) =
    exec ontop_code code n main saved' (current_ s) (after (mk_fiber p) s') /\
    current_ s' = current_ s /\
    records s' !! p = Some (finished r) /\
    records s' !! current_ s = Some (set_from nullptr rc) /\
    (forall q, q <> p -> q <> current_ s -> records s' !! q = records s !! q) /\
    trace s' = trace s /\
    operator_bool (mk_fiber p) s' = Done false s' /\
    saved' !! current_ s = None.
Proof.
  intros Hp Hcn Hne Hr Hctx Hf Ho Hrc Hrun Hfc Hoc Hcons Hsaved Hrest.
  set (cur := current_ s) in *.
  rewrite (fiber_resume_switch ontop_code (mk_fiber p) s r Hp Hr).
  cbn [bind_res ptr_]. fold cur.
  set (km := fun s' : state =>
               bind_res (bind_res (exchange_current_from s') (after_transfer ontop_code))
                 after).
  set (s1 := entered p r s).
  rewrite (exec_switch_saved ontop_code code (S n) main running cur p saved s1 km
             (suspended_in_resume ontop_code p c rest) (set_from cur r)).
  2: { subst s1. unfold entered. simpl. apply lookup_insert_eq. }
  2: { left. exact Hctx. }
  2: { rewrite lookup_insert_ne by congruence. exact Hsaved. }
  assert (Hc1 : records s1 !! current_ s1 = Some (set_from cur r)).
  { subst s1. unfold entered. simpl. apply lookup_insert_eq. }
  set (r1 := set_from cur r) in *.
  set (s2 := from_cleared r1 s1).
  assert (Hsusp : suspended_in_resume ontop_code p c rest s1 =
                  Switch p cur (entered cur rc (run_finished p (set_from nullptr r1) s2))
                    (fun s' => noexcept_res (after_last_transfer ontop_code s'))).
  { unfold suspended_in_resume.
    rewrite (back_at_call_site _ _ _ Hc1).
    rewrite (after_transfer_plain _ _ _ (set_from nullptr r1) (from_cleared_current _ _))
      by assumption.
    cbn [bind_res]. rewrite Hrest.
    cbn [bind_res from r1 set_from]. fold s2.
    rewrite (assign_temporary_consumed c (mk_fiber cur) s2 Hcons).
    cbn [bind_res try_catch_res].
    rewrite (run_epilogue_assigned ontop_code p c (mk_fiber cur) s2 (set_from nullptr r1) rc).
    - reflexivity.
    - exact Hcons.
    - apply from_cleared_current.
    - exact Hcn.
    - unfold run_finished, s2, from_cleared, s1, entered. simpl.
      rewrite !lookup_insert_ne by congruence. exact Hrc. }
  rewrite Hsusp.
  set (s3 := entered cur rc (run_finished p (set_from nullptr r1) s2)).
  rewrite (exec_switch_saved ontop_code code n main p p cur (delete p (<[cur := km]> saved))
             s3 _ km (set_from p rc)).
  2: { subst s3. unfold entered. simpl. apply lookup_insert_eq. }
  2: { exact Hrun. }
  2: { rewrite lookup_insert_ne by congruence. rewrite lookup_delete_ne by congruence.
       apply lookup_insert_eq. }
  assert (Hc3 : records s3 !! current_ s3 = Some (set_from p rc)).
  { subst s3. unfold entered. simpl. apply lookup_insert_eq. }
  subst km. cbn beta.
  rewrite (back_at_call_site _ _ _ Hc3).
  rewrite (after_transfer_plain _ _ _ _ (from_cleared_current _ _)) by assumption.
  cbn [bind_res from set_from].
  assert (Hp4 : records (from_cleared (set_from p rc) s3) !! p = Some (finished r)).
  { unfold from_cleared, s3, entered, run_finished. simpl.
    rewrite !lookup_insert_ne by congruence. rewrite lookup_insert_eq. reflexivity. }
  eexists _, _. split; [reflexivity |].
  split; [reflexivity |]. split; [exact Hp4 |].
  split.
  { unfold from_cleared, s3, entered. simpl. apply lookup_insert_eq. }
  split.
  { intros q Hqp Hqc. unfold from_cleared, s3, entered, run_finished, s2, from_cleared,
      s1, entered. simpl. now rewrite !lookup_insert_ne by congruence. }
  split; [reflexivity |].
  split.
  { unfold operator_bool. simpl. rewrite (eqb_nullptr_false _ Hp). simpl.
    unfold bind. now rewrite (deref_live _ _ _ Hp4). }
  apply lookup_delete_eq.
Qed.

End Completion.

(** ** Construction *)

Lemma to_uintptr_range (x : Z) : 0 <= to_uintptr x < uintptr_modulus.
Proof. unfold to_uintptr. apply Z.mod_pos_bound. reflexivity. Qed.

(** X13: whatever the arguments, also when the subtraction wraps, the
    address chosen for the record is a [uintptr_t] value that is a multiple
    of 256 and lies less than 256 below the wrapped difference of the stack
    base and the required space. *)
Theorem record_address_aligned (sizeof_T stack_base : Z) :
  let x := to_uintptr (stack_base - to_size_t (sizeof_T + 10000)) in
  record_address sizeof_T stack_base mod 256 = 0 /\
  x - 255 <= record_address sizeof_T stack_base <= x /\
  0 <= record_address sizeof_T stack_base < uintptr_modulus.
Proof.
  intros x. unfold record_address. fold x.
  pose proof (to_uintptr_range (stack_base - to_size_t (sizeof_T + 10000))) as Hx.
  fold x in Hx. rewrite (mask_rounds_down x Hx).
  pose proof (Z.mod_pos_bound x 256 ltac:(lia)).
  pose proof (Z.div_mod x 256 ltac:(lia)).
  split; [| lia].
  rewrite Z.mul_comm. apply Z.mod_mul. lia.
Qed.

(** X14: construction with an allocator whose regions are large enough runs
    no code of the fiber.  It takes one region from the allocator, builds
    the record inside it at a multiple of 256, leaves an asyncify stack of
    at least 10000 and fewer than 10256 bytes that ends at the top of the
    region, touches no other record, and returns a handle that tests
    true. *)
Theorem fiber_construct_fresh (sizeof_T : Z) (salloc : StackAlloc) (fn : fn_id)
    (s : state) :
  0 < sizeof_T ->
  0 <= brk s ->
  brk s + salloc_size salloc < uintptr_modulus ->
  sizeof_T + 10256 <= salloc_size salloc ->
  let top := brk s + salloc_size salloc in
  exists p s' r,
    fiber_construct sizeof_T salloc fn s = Done (mk_fiber p) s' /\
    p = 256 * ((top - sizeof_T - 10000) / 256) /\
    brk s < p /\ p + sizeof_T + 10000 <= top /\
    records s' !! p = Some r /\
    (forall q, q <> p -> records s' !! q = records s !! q) /\
    main_ctx r = false /\ terminated r = false /\ force_unwind r = false /\
    from r = nullptr /\ ontop r = None /\
    capture r = Some (mk_capture salloc fn) /\
    sctx r = mk_stack_context (salloc_size salloc) top /\
    context r = fiber_entry p (brk s) (p - brk s) (p + sizeof_T) (top - (p + sizeof_T)) /\
    asyncify_stack r = p + sizeof_T /\
    asyncify_stack r + asyncify_stack_size r = top /\
    10000 <= asyncify_stack_size r < 10256 /\
    asyncify_stack_owned r = false /\
    operator_bool (mk_fiber p) s' = Done true s' /\
    current_ s' = current_ s /\
    brk s' = top /\
    trace s' = trace s ++ [ev_allocate (mk_stack_context (salloc_size salloc) top)].
Proof.
  intros Hs Hb Htop Hsize top.
  set (rp := 256 * ((top - sizeof_T - 10000) / 256)).
  assert (Hrp : record_address sizeof_T top = rp)
    by (apply record_address_no_wrap; subst top; lia).
  assert (Hdiv : rp <= top - sizeof_T - 10000 < rp + 256).
  { subst rp. pose proof (Z.mod_pos_bound (top - sizeof_T - 10000) 256).
    pose proof (Z.div_mod (top - sizeof_T - 10000) 256). lia. }
  assert (Hbot : region_bottom (mk_stack_context (salloc_size salloc) top) = brk s).
  { unfold region_bottom. simpl. rewrite to_uintptr_small; subst top; lia. }
  unfold fiber_construct, create_fiber1, bind, salloc_allocate. simpl. fold top.
  unfold allocate_and_init_record. rewrite Hrp, Hbot. unfold bind. simpl.
  destruct (Z.ltb_spec (brk s) rp) as [Hlt | Hge]; [| subst top; lia]. simpl.
  unfold modify, deref, emscripten_fiber_init, modify. simpl.
  rewrite !lookup_insert_eq. simpl. rewrite !lookup_insert_eq. simpl.
  rewrite !lookup_insert_eq. simpl.
  unfold to_size_t.
  rewrite (to_uintptr_small (rp + sizeof_T)) by (subst top; lia).
  rewrite (to_uintptr_small (top - _)) by (subst top; lia).
  rewrite (to_uintptr_small (rp - brk s)) by (subst top; lia).
  eexists _, _, _. split; [reflexivity |]. simpl.
  split; [reflexivity |]. split; [assumption |]. split; [lia |].
  rewrite lookup_insert_eq. split; [reflexivity |].
  split; [intros q Hq; now rewrite !lookup_insert_ne by congruence |].
  simpl. repeat (split; [reflexivity |]).
  split; [lia |]. split; [lia |]. split; [reflexivity |].
  split; [| auto].
  unfold operator_bool. simpl.
  assert (Hnz : rp <> nullptr) by (unfold nullptr; lia).
  rewrite (eqb_nullptr_false _ Hnz). simpl.
  unfold bind, deref. simpl. rewrite lookup_insert_eq. reflexivity.
Qed.

(** X15: construction over a preallocated region places the record below
    [palloc.sp], but the asyncify stack still runs up to the top of the
    whole region [sctx.sp], so it covers the bytes between [palloc.sp] and
    [sctx.sp]; the [size] member of the [preallocated] argument has no
    influence on the result. *)
Theorem fiber_construct_preallocated_layout (sizeof_T : Z) (palloc : preallocated)
    (salloc : StackAlloc) (fn : fn_id) (s : state) :
  0 < sizeof_T ->
  sizeof_T + 10000 <= palloc_sp palloc ->
  palloc_sp palloc <= sp (palloc_sctx palloc) < uintptr_modulus ->
  0 <= size (palloc_sctx palloc) <= sp (palloc_sctx palloc) ->
  let bottom := sp (palloc_sctx palloc) - size (palloc_sctx palloc) in
  let p := 256 * ((palloc_sp palloc - sizeof_T - 10000) / 256) in
  bottom < p ->
  (exists s' r,
     fiber_construct_preallocated sizeof_T palloc salloc fn s = Done (mk_fiber p) s' /\
     records s' !! p = Some r /\
     p + sizeof_T + 10000 <= palloc_sp palloc /\
     asyncify_stack r = p + sizeof_T /\
     asyncify_stack r + asyncify_stack_size r = sp (palloc_sctx palloc) /\
     asyncify_stack r <= palloc_sp palloc <= asyncify_stack r + asyncify_stack_size r /\
     trace s' = trace s) /\
  (forall size',
     fiber_construct_preallocated sizeof_T
       (mk_preallocated (palloc_sp palloc) size' (palloc_sctx palloc)) salloc fn s =
     fiber_construct_preallocated sizeof_T palloc salloc fn s).
Proof.
  intros Hs Hb Hsp Hsz bottom p Hlt. split; [| reflexivity].
  destruct (allocate_and_init_record_no_wrap sizeof_T (palloc_sctx palloc)
              (palloc_sp palloc) salloc fn s Hs Hb Hsp Hsz) as [_ Hok].
  destruct (Hok Hlt) as (_ & Hfit & s' & r & Hrun & Hr & Has & Hasz & _ & _ & _ & _ & _ & Htr & _).
  exists s', r. unfold fiber_construct_preallocated, create_fiber2, bind.
  fold p in Hrun, Hr, Has, Hasz, Hfit. rewrite Hrun. simpl.
  split; [reflexivity |]. split; [assumption |]. split; [assumption |].
  split; [assumption |]. rewrite Has, Hasz. split; [lia |]. split; [lia | assumption].
Qed.

(** ** The further properties at concrete states *)

Module MoreWitnesses.
Import Scenario MoreScenarios.

Ltac evaluate := vm_compute; first [reflexivity | discriminate | tauto].
Ltac bounds := vm_compute; repeat split; first [reflexivity | discriminate].

Lemma swap_exchanges_witness :
  let s := two_handles (s_fresh 0%nat) in
  exists s1,
    swap 10 20 s = Done tt s1 /\
    objects s1 !! 10 = Some (mk_fiber nullptr) /\
    objects s1 !! 20 = Some (mk_fiber fresh_record) /\
    swap 10 20 s1 = Done tt s.
Proof.
  intros s.
  destruct (swap_exchanges 10 20 s (mk_fiber fresh_record) (mk_fiber nullptr))
    as (s1 & H1 & H2 & H3 & _ & _ & _ & H4 & _); [evaluate | evaluate |].
  exists s1. auto.
Defined.

Lemma fiber_dtor_without_switch_witness :
  let s := s_terminated 0%nat in
  fiber_dtor (mk_fiber nullptr) s = Done tt s /\
  exists s',
    fiber_dtor (mk_fiber fresh_record) s = Done tt s' /\
    records s' !! fresh_record = None /\
    records s' !! main_record = records s !! main_record /\
    count_occ event_eq_dec (trace s') (ev_deallocate (mk_stack_context 65536 1146880)) = 1%nat.
Proof.
  intros s.
  destruct (fiber_dtor_without_switch (mk_fiber nullptr) s) as [Hempty _].
  destruct (fiber_dtor_without_switch (mk_fiber fresh_record) s) as [_ Hterm].
  split; [apply Hempty; evaluate |].
  destruct (Hterm (record_at fresh_record s) (mk_capture stacks 0%nat))
    as (s' & H1 & H2 & H3 & _ & _ & H4); [evaluate | evaluate | evaluate | evaluate
                                         | evaluate |].
  exists s'. split; [exact H1 |]. split; [exact H2 |].
  split; [apply H3; evaluate | exact H4].
Defined.

Lemma fiber_move_assign_transfers_witness :
  (exists s',
     fiber_move_assign 30 20 10 (two_handles (s_fresh 0%nat)) = Done tt s' /\
     objects s' !! 20 = Some (mk_fiber fresh_record) /\
     objects s' !! 10 = Some (mk_fiber nullptr) /\
     records s' = records (s_fresh 0%nat)) /\
  (exists s',
     fiber_move_assign 30 10 20 finished_and_empty = Done tt s' /\
     objects s' !! 10 = Some (mk_fiber nullptr) /\
     objects s' !! 20 = Some (mk_fiber nullptr) /\
     records s' = delete fresh_record (records (s_terminated 0%nat))).
Proof.
  split.
  - destruct (fiber_move_assign_transfers 30 20 10 (two_handles (s_fresh 0%nat))
                (mk_fiber nullptr) (mk_fiber fresh_record))
      as (s' & H1 & H2 & H3 & _ & _ & H4 & _);
      [lia | lia | lia | evaluate | evaluate | left; evaluate |].
    exists s'. split; [exact H1 |]. split; [exact H2 |]. split; [exact H3 |].
    apply H4. evaluate.
  - destruct (fiber_move_assign_transfers 30 10 20 finished_and_empty
                (mk_fiber fresh_record) (mk_fiber nullptr))
      as (s' & H1 & H2 & H3 & _ & _ & _ & H4);
      [lia | lia | lia | evaluate | evaluate | |].
    { right. exists (record_at fresh_record finished_and_empty), (mk_capture stacks 0%nat).
      repeat split; evaluate. }
    exists s'. split; [exact H1 |]. split; [exact H2 |]. split; [exact H3 |].
    apply (H4 (record_at fresh_record finished_and_empty) (mk_capture stacks 0%nat));
      evaluate.
Defined.

Lemma fiber_move_assign_unwinds_witness :
  let s := two_handles (s_fresh 0%nat) in
  exists s1 k r1,
    fiber_move_assign 30 10 20 s = Switch main_record fresh_record s1 k /\
    objects s1 !! 10 = Some (mk_fiber nullptr) /\
    objects s1 !! 20 = Some (mk_fiber nullptr) /\
    records s1 !! fresh_record = Some r1 /\
    force_unwind r1 = true.
Proof.
  intros s.
  destruct (fiber_move_assign_unwinds 30 10 20 s (mk_fiber fresh_record) (mk_fiber nullptr)
              (record_at fresh_record s))
    as (s1 & k & r1 & H1 & H2 & H3 & _ & H4 & H5 & _);
    [lia | lia | lia | evaluate | evaluate | evaluate | evaluate | evaluate | evaluate |].
  exists s1, k, r1. auto.
Defined.

Lemma main_record_owns_asyncify_stack_witness :
  exists s1 r s2,
    construct_main_record main_record s_blank = Done tt s1 /\
    records s1 !! main_record = Some r /\
    asyncify_stack r = heap_base /\
    asyncify_stack_owned r = true /\
    allocate_asyncify_stack main_record s1 = Aborted "!asyncify_stack" s1 /\
    record_dtor main_record s1 = Done tt s2 /\
    trace s2 = [ev_new_array heap_base 32768; ev_delete_array heap_base].
Proof.
  destruct (main_record_owns_asyncify_stack main_record s_blank)
    as (s1 & r & H1 & H2 & _ & _ & _ & H3 & _ & H4 & _ & _ & Htr & H5 & s2 & H6 & _ & H7);
    [evaluate |].
  exists s1, r, s2. repeat (split; [assumption |]).
  rewrite H7, Htr. reflexivity.
Defined.

Lemma resume_round_trip_witness :
  let s := s_fresh 0%nat in
  let s2 := s_entered 0%nat in
  exists ka kb s3,
    fiber_resume ontops (mk_fiber fresh_record) s =
      Switch main_record fresh_record (entered fresh_record (record_at fresh_record s) s) ka /\
    fiber_resume ontops (mk_fiber main_record) s2 =
      Switch fresh_record main_record (entered main_record (record_at main_record s2) s2) kb /\
    ka (entered main_record (record_at main_record s2) s2) = Done (mk_fiber fresh_record) s3 /\
    current_ s3 = main_record.
Proof.
  intros s s2.
  destruct (resume_round_trip ontops main_record fresh_record s s2
              (record_at fresh_record s) (record_at main_record s2))
    as (ka & kb & s3 & H1 & H2 & H3 & H4 & _);
    [evaluate | evaluate | evaluate | evaluate | evaluate | evaluate | evaluate
    | evaluate |].
  exists ka, kb, s3. auto.
Defined.

Lemma resume_with_delivers_witness :
  let s := s_fresh 0%nat in
  let rb := record_at fresh_record s in
  exists kb ka s4,
    fiber_resume ontops (mk_fiber main_record) (s_entered 0%nat) =
      Switch fresh_record main_record
        (entered main_record (record_at main_record (s_entered 0%nat)) (s_entered 0%nat)) kb /\
    fiber_resume_with ontops (mk_fiber fresh_record) 0%nat s =
      Switch main_record fresh_record (ontop_installed 0%nat fresh_record rb s) ka /\
    kb (ontop_installed 0%nat fresh_record rb s) = Done (mk_fiber main_record) s4 /\
    ontop (record_at fresh_record s4) = None.
Proof.
  intros s rb.
  set (kb := fun s' => bind_res (exchange_current_from s') (after_transfer ontops)).
  set (s1 := ontop_installed 0%nat fresh_record rb s).
  set (rb1 := set_ontop (Some 0%nat) (set_from main_record rb)).
  destruct (resume_with_delivers ontops main_record fresh_record 0%nat s (s_entered 0%nat)
              (mk_fiber main_record) rb
              fresh_record main_record
              (entered main_record (record_at main_record (s_entered 0%nat)) (s_entered 0%nat))
              kb)
    as (ka & H1 & _ & _ & H2);
    [ apply fiber_resume_switch; evaluate
    | evaluate | evaluate | evaluate | evaluate |].
  pose (c := local_address (from_cleared rb1 s1)).
  pose (s3 := set_objects <[c := mk_fiber nullptr]> (from_cleared rb1 s1)).
  destruct (H2 (mk_fiber main_record) s3 ltac:(evaluate)) as [Hdone _].
  destruct (Hdone ltac:(evaluate) ltac:(right; eexists; evaluate)
              (record_at fresh_record s3) ltac:(evaluate)) as [Hk _].
  exists kb, ka, (ontop_cleared (record_at fresh_record s3) (set_objects (delete c) s3)).
  split; [apply fiber_resume_switch; evaluate |].
  split; [exact H1 |]. split; [exact Hk | evaluate].
Defined.

Lemma finished_fiber_handle_witness :
  let s1 := add_event (ev_user 1) (s_entered 0%nat) in
  let r1 := record_at fresh_record s1 in
  let rt := record_at main_record s1 in
  exists k s4 s5,
    fiber_resume ontops (mk_fiber fresh_record) (s_fresh 0%nat) =
      Switch main_record fresh_record
        (entered fresh_record (record_at fresh_record (s_fresh 0%nat)) (s_fresh 0%nat)) k /\
    k (entered main_record rt (run_finished fresh_record r1 s1)) =
      Done (mk_fiber fresh_record) s4 /\
    operator_bool (mk_fiber fresh_record) s4 = Done false s4 /\
    fiber_dtor (mk_fiber fresh_record) s4 = Done tt s5 /\
    records s5 !! fresh_record = None.
Proof.
  intros s1 r1 rt.
  set (k := fun s' => bind_res (exchange_current_from s') (after_transfer ontops)).
  destruct (finished_fiber_handle ontops fresh_record main_record s1 r1 rt
              (mk_capture stacks 0%nat) (mk_fiber fresh_record) (s_fresh 0%nat)
              main_record fresh_record
              (entered fresh_record (record_at fresh_record (s_fresh 0%nat)) (s_fresh 0%nat)) k)
    as (s4 & H1 & _ & H2 & _ & s5 & H3 & H4 & _);
    [ apply fiber_resume_switch; evaluate
    | evaluate | evaluate | evaluate | evaluate | evaluate | evaluate | evaluate
    | evaluate | evaluate |].
  exists k, s4, s5. split; [apply fiber_resume_switch; evaluate | auto].
Defined.

Lemma forced_unwind_cycle_witness :
  let s := s_suspended in
  exists s' saved',
    exec ontops closures 3 main_record saved_one main_record
      (bind_res (fiber_dtor (mk_fiber fresh_record) s) (fun _ => ret tt)) =
    exec ontops closures 1 main_record saved' main_record (ret tt s') /\
    records s' !! fresh_record = None /\
    trace s' = trace s ++ freed_events (record_at fresh_record s) (mk_capture stacks 1%nat) /\
    count_occ event_eq_dec (trace s') (ev_deallocate (mk_stack_context 65536 1146880)) = 1%nat.
Proof.
  intros s.
  destruct (forced_unwind_cycle ontops closures 1 main_record main_record fresh_record
              saved_one s (record_at fresh_record s) (record_at main_record s)
              (mk_capture stacks 1%nat) run_handle rest_of_one (fun _ => ret tt))
    as (s' & saved' & H1 & H2 & _ & _ & _ & H3 & H4 & _);
    [ evaluate | evaluate | evaluate | evaluate | evaluate | evaluate | evaluate | evaluate
    | evaluate | right; eexists _, _; evaluate | evaluate | reflexivity |].
  exists s', saved'. split; [exact H1 |]. split; [exact H2 |]. split; [exact H3 | exact H4].
Defined.

Lemma first_resume_round_trip_witness :
  let s := s_fresh 1%nat in
  exists s' saved',
    exec ontops yielding 3 main_record ∅ main_record
      (bind_res (fiber_resume ontops (mk_fiber fresh_record) s) fiber_dtor) =
    exec ontops yielding 1 main_record saved' main_record
      (fiber_dtor (mk_fiber fresh_record) s') /\
    saved' !! fresh_record =
      Some (suspended_in_resume ontops fresh_record run_handle rest_of_one) /\
    current_ s' = main_record /\
    objects s' !! run_handle = Some (mk_fiber nullptr) /\
    trace s' = trace s.
Proof.
  intros s.
  destruct (first_resume_round_trip ontops yielding 1 main_record main_record fresh_record
              ∅ s (record_at fresh_record s) (record_at main_record s)
              (mk_capture stacks 1%nat) rest_of_one fiber_dtor
              1081344 55040 1136640 10240)
    as (s' & saved' & H1 & H2 & _ & _ & H3 & _ & _ & _ & H4 & H5);
    [ evaluate | evaluate | evaluate | evaluate | evaluate | evaluate | evaluate
    | right; eexists _, _; evaluate | evaluate | evaluate | intros c s0; reflexivity |].
  exists s', saved'. split; [exact H1 |]. split; [exact H2 |]. split; [exact H3 |].
  split; [| exact H5]. rewrite H4. evaluate.
Defined.


Lemma fiber_construct_fresh_witness :
  exists s' r,
    fiber_construct sizeof_record stacks 0%nat s_main = Done (mk_fiber fresh_record) s' /\
    records s' !! fresh_record = Some r /\
    asyncify_stack_size r = 10240 /\
    operator_bool (mk_fiber fresh_record) s' = Done true s' /\
    trace s' = trace s_main ++ [ev_allocate (mk_stack_context 65536 1146880)].
Proof.
  destruct (fiber_construct_fresh sizeof_record stacks 0%nat s_main)
    as (p & s' & r & H1 & Hp & _ & _ & H2 & _ & _ & _ & _ & _ & _ & _ & _ & _ & H3 & H4
        & _ & _ & H5 & _ & _ & H6);
    [evaluate | evaluate | evaluate | evaluate |].
  assert (Hp' : p = fresh_record) by (rewrite Hp; evaluate). subst p.
  exists s', r. split; [exact H1 |]. split; [exact H2 |].
  split; [| split; [exact H5 | exact H6]].
  rewrite H3 in H4.
  change (1136640 + asyncify_stack_size r = 1146880) in H4. lia.
Defined.

Lemma fiber_construct_preallocated_layout_witness :
  exists s' r,
    fiber_construct_preallocated sizeof_record inner_area stacks 0%nat s_main =
      Done (mk_fiber 1089536) s' /\
    records s' !! 1089536 = Some r /\
    asyncify_stack r = 1089792 /\
    asyncify_stack r + asyncify_stack_size r = 1146880.
Proof.
  destruct (fiber_construct_preallocated_layout sizeof_record inner_area stacks 0%nat s_main)
    as [(s' & r & H1 & H2 & _ & H3 & H4 & _) _];
    [bounds | bounds | bounds | bounds | bounds |].
  exists s', r. split; [exact H1 |]. split; [exact H2 |]. split; [exact H3 | exact H4].
Defined.

Lemma completion_cycle_witness :
  let s := s_suspended in
  exists s' saved',
    exec ontops closures 3 main_record saved_last main_record
      (bind_res (fiber_resume ontops (mk_fiber fresh_record) s) fiber_dtor) =
    exec ontops closures 1 main_record saved' main_record
      (fiber_dtor (mk_fiber fresh_record) s') /\
    records s' !! fresh_record = Some (finished (record_at fresh_record s)) /\
    operator_bool (mk_fiber fresh_record) s' = Done false s' /\
    trace s' = trace s.
Proof.
  intros s.
  destruct (completion_cycle ontops closures 1 main_record main_record fresh_record
              saved_last s (record_at fresh_record s) (record_at main_record s)
              run_handle ret fiber_dtor)
    as (s' & saved' & H1 & _ & H2 & _ & _ & H3 & H4 & _);
    [ evaluate | evaluate | evaluate | evaluate | evaluate | evaluate | evaluate | evaluate
    | right; eexists _, _; evaluate | evaluate | evaluate | evaluate | reflexivity
    | intros c s0; reflexivity |].
  exists s', saved'. auto.
Defined.

End MoreWitnesses.
